(** * env_manager: discovery and safe deletion of Python environments

    A shallow embedding of the scanning and deletion engine of
    [env_manager.py] (the functions [scan_all_environments],
    [scan_venv_dirs], [scan_conda_envs], [scan_current_dir_venv],
    [is_current_env], [delete_environment] and the deduplication step of
    [MainWindow.refresh_environments]).

    The operating system is an interface ([Host]): every call the program
    makes to [pathlib], [shutil], [subprocess] and [json] is an operation of
    that interface, reads returning an [outcome] (a value or the exception
    raised) and the two mutating calls returning the next machine state
    as well.  What [print] writes is
    returned as a list of lines.  The Qt widgets are not modelled, and the
    three scans are run one after the other: they only read, and
    [asyncio.gather] hands their results back in argument order. *)

From Stdlib Require Import String Ascii List Bool Arith Lia DecimalString.
Import ListNotations.
Open Scope string_scope.
Open Scope list_scope.

(* ------------------------------------------------------------------ *)
(** ** Python strings *)
(* ------------------------------------------------------------------ *)

(** [s.startswith(pre)] *)
Definition startswith (s pre : string) : bool := String.prefix pre s.

(** [pat in s] *)
Definition contains (pat s : string) : bool :=
  match String.index 0 pat s with
  | Some _ => true
  | None => false
  end.

(** [str.lower] on code points below 128.  A string is kept as its UTF-8
    bytes; [str.lower] maps no code point outside [A-Z] to one of the
    letters of ["base"], the only literal a lowered string is compared with,
    so leaving the other bytes alone does not change that comparison. *)
Definition lower_ascii (c : ascii) : ascii :=
  let n := nat_of_ascii c in
  if ((65 <=? n) && (n <=? 90))%nat then ascii_of_nat (n + 32) else c.

Definition upper_ascii (c : ascii) : ascii :=
  let n := nat_of_ascii c in
  if ((97 <=? n) && (n <=? 122))%nat then ascii_of_nat (n - 32) else c.

Fixpoint lower (s : string) : string :=
  match s with
  | EmptyString => EmptyString
  | String c r => String (lower_ascii c) (lower r)
  end.

(** [s] is [ref] up to the casing of each letter ([ref] is lower case). *)
Definition casing_of (ref s : string) : Prop :=
  Forall2 (fun r c => c = r \/ c = upper_ascii r)
          (list_ascii_of_string ref) (list_ascii_of_string s).

(** A byte that continues a UTF-8 sequence ([10xxxxxx]). *)
Definition continuation (c : ascii) : bool :=
  let n := nat_of_ascii c in ((128 <=? n) && (n <? 192))%nat.

(** The characters of a string, as [for c in s] yields them: a string is
    kept as its UTF-8 bytes, and a character is a byte with the
    continuation bytes that follow it. *)
Fixpoint chars (s : string) : list string :=
  match s with
  | EmptyString => []
  | String c r =>
      let glued :=
        match r with
        | String c' _ => continuation c'
        | EmptyString => false
        end in
      match chars r with
      | h :: t =>
          if glued then String c h :: t else String c EmptyString :: h :: t
      | [] => [String c EmptyString]
      end
  end.

(* ------------------------------------------------------------------ *)
(** ** Exceptions and results *)
(* ------------------------------------------------------------------ *)

(** The exception classes the program can meet, each standing for its
    subclasses too ([FileNotFoundError] and [PermissionError] are
    [OSError]s, [JSONDecodeError] is a [ValueError]).  All of them derive
    from [Exception]. *)
Inductive exn_class : Type :=
| OSError | RuntimeError | ValueError | TypeError | AttributeError
| CalledProcessError.

Record exn : Type := mkExn { exn_cls : exn_class; exn_str : string }.

Inductive outcome (A : Type) : Type :=
| Ret (a : A)
| Raise (e : exn).
Arguments Ret {A} a.
Arguments Raise {A} e.

Definition bind {A B} (m : outcome A) (k : A -> outcome B) : outcome B :=
  match m with
  | Ret a => k a
  | Raise e => Raise e
  end.

Notation "x <- m ;; k" := (bind m (fun x => k))
  (at level 61, m at next level, right associativity).

(** [a and b] and [a or b] on tests that can raise: [b] is looked at only
    when [a] returned and did not decide. *)
Definition and_then (a b : outcome bool) : outcome bool :=
  x <- a ;; if x then b else Ret false.

Definition or_else (a b : outcome bool) : outcome bool :=
  x <- a ;; if x then Ret true else b.

(** [try: body  except classes: handler] *)
Definition try_except {A} (body : outcome A) (catches : exn_class -> bool)
           (handler : exn -> outcome A) : outcome A :=
  match body with
  | Ret a => Ret a
  | Raise e => if catches (exn_cls e) then handler e else Raise e
  end.

Definition OSError_or_RuntimeError (c : exn_class) : bool :=
  match c with
  | OSError | RuntimeError => true
  | _ => false
  end.

(* ------------------------------------------------------------------ *)
(** ** pathlib paths *)
(* ------------------------------------------------------------------ *)

Module Path.

(** A POSIX path as [pathlib] keeps it: whether it starts at the root,
    and its components. *)
Record t : Type := mk { anchored : bool; parts : list string }.

(** [p / child] for a single component. *)
Definition joinpath (p : t) (child : string) : t :=
  mk (anchored p) (parts p ++ [child]).

(** [p.name]: the final component, [""] when there is none. *)
Definition name (p : t) : string := last (parts p) "".

(** [str(p)], also [p.as_posix()] on POSIX. *)
Definition str (p : t) : string :=
  match anchored p, parts p with
  | true, _ => ("/" ++ String.concat "/" (parts p))%string
  | false, [] => "."
  | false, _ => String.concat "/" (parts p)
  end.

(** The pieces of a string between slashes. *)
Fixpoint segments (s : string) : list string :=
  match s with
  | EmptyString => [EmptyString]
  | String c r =>
      if Ascii.eqb c "/"
      then EmptyString :: segments r
      else match segments r with
           | [] => [String c EmptyString]
           | h :: tl => String c h :: tl
           end
  end.

Definition kept (seg : string) : bool :=
  negb (String.eqb seg "" || String.eqb seg ".").

(** [Path(s)]: empty pieces and ["."] pieces are dropped. *)
Definition of_str (s : string) : t :=
  mk (startswith s "/") (filter kept (segments s)).

(** [a] is [d] or lies below it, component by component. *)
Fixpoint below (d a : list string) : bool :=
  match d, a with
  | [], _ => true
  | x :: d', y :: a' => String.eqb x y && below d' a'
  | _ :: _, [] => false
  end.

End Path.

Declare Scope path_scope.
Delimit Scope path_scope with path.
Bind Scope path_scope with Path.t.
Infix "/" := Path.joinpath : path_scope.
Arguments Path.joinpath p%_path child%_string.

(* ------------------------------------------------------------------ *)
(** ** The data model *)
(* ------------------------------------------------------------------ *)

Record Environment : Type := mkEnvironment {
  name : string;
  env_type : string;
  path : string
}.

(** The JSON values [json.loads] can return. *)
#[local] Set Warnings "-register-all".
Inductive json : Type :=
| JNull
| JBool (b : bool)
| JNum (n : nat)
| JStr (s : string)
| JArr (items : list json)
| JObj (members : list (string * json)).

(* ------------------------------------------------------------------ *)
(** ** The host interface *)
(* ------------------------------------------------------------------ *)

Class Host (S : Type) : Type := {
  (** [sys.executable] *)
  sys_executable : S -> string;
  (** [Path.home()] and [Path.cwd()] *)
  path_home : S -> outcome Path.t;
  path_cwd : S -> outcome Path.t;
  (** [p.is_dir()], [p.exists()]: the answer, [False] for a path that is
      missing, or the [OSError] of a path that cannot be examined
      ([PermissionError]), which both calls let through *)
  is_dir : S -> Path.t -> outcome bool;
  path_exists : S -> Path.t -> outcome bool;
  (** [p.iterdir()]: the names of the entries of [p] *)
  iterdir : S -> Path.t -> outcome (list string);
  (** [p.resolve()] *)
  resolve : S -> Path.t -> outcome Path.t;
  (** [shutil.which(cmd)] *)
  which : S -> string -> option string;
  (** [json.loads(subprocess.run([conda, "env", "list", "--json"],
      check=True).stdout)] *)
  conda_env_list : S -> string -> outcome json;
  (** [subprocess.run(["conda", "env", "remove", "--prefix", p, "-y"],
      check=True)] *)
  conda_env_remove : S -> string -> outcome unit * S;
  (** [shutil.rmtree(p)] *)
  rmtree : S -> string -> outcome unit * S
}.

(** What a sane file system guarantees between two of the reads: a path
    that is a directory resolves, and to a directory. *)
Class HostLaws (S : Type) `{Host S} : Prop := {
  resolve_is_dir :
    forall (s : S) (p : Path.t),
      is_dir s p = Ret true ->
      exists q, resolve s p = Ret q /\ is_dir s q = Ret true
}.

(* ------------------------------------------------------------------ *)
(** ** The program *)
(* ------------------------------------------------------------------ *)

Section Program.

Context {S : Type} `{Host S}.

Definition in_use_msg : string :=
  "Cannot delete the environment currently in use.".
Definition base_msg : string :=
  "Cannot delete the Conda base environment.".

(** [f"Error scanning {base}: {exc}"] *)
Definition scan_error_line (base : Path.t) (exc : exn) : string :=
  ("Error scanning " ++ Path.str base ++ ": " ++ exn_str exc)%string.

(** *** Scanning *)

(** The type tag of line 253, computed from the base directory. *)
Definition etype_of (base : Path.t) : string :=
  if contains "pypoetry" (Path.str base) then "Poetry"
  else if contains "local" (Path.str base) then "Pipenv"
  else "venv".

(** Lines 251-254: the loop over the entries of one base directory.  The
    list [envs] is the caller's, so what was appended before an exception
    stays appended; an exception of the test of line 252 ends the loop as
    one of [resolve] does. *)
Fixpoint scan_venv_entries (s : S) (base : Path.t) (entries : list string)
         (envs : list Environment) : list Environment * option exn :=
  match entries with
  | [] => (envs, None)
  | child :: rest =>
      let entry := (base / child)%path in
      match and_then (is_dir s entry)
                     (path_exists s (entry / "pyvenv.cfg")%path) with
      | Raise e => (envs, Some e)
      | Ret true =>
          let etype := etype_of base in
          match resolve s entry with
          | Raise e => (envs, Some e)
          | Ret r =>
              scan_venv_entries s base rest
                (envs ++ [mkEnvironment (Path.name entry) etype (Path.str r)])
          end
      | Ret false => scan_venv_entries s base rest envs
      end
  end.

(** Lines 249-256: one base directory.  The test of line 249 is outside
    the [try]: what it raises leaves the scanner, the lines printed so
    far staying printed. *)
Definition scan_venv_base (s : S) (base : Path.t)
           (acc : list Environment * list string)
  : outcome (list Environment) * list string :=
  let '(envs, out) := acc in
  match is_dir s base with
  | Raise e => (Raise e, out)
  | Ret false => (Ret envs, out)
  | Ret true =>
      match iterdir s base with
      | Raise exc => (Ret envs, out ++ [scan_error_line base exc])
      | Ret entries =>
          match scan_venv_entries s base entries envs with
          | (envs', None) => (Ret envs', out)
          | (envs', Some exc) => (Ret envs', out ++ [scan_error_line base exc])
          end
      end
  end.

(** [for base in bases: ...] with a body that can raise: the loop ends at
    the first exception. *)
Fixpoint for_each {B : Type}
         (body : B -> list Environment * list string
                 -> outcome (list Environment) * list string)
         (bases : list B) (acc : list Environment * list string)
  : outcome (list Environment) * list string :=
  match bases with
  | [] => (Ret (fst acc), snd acc)
  | base :: rest =>
      match body base acc with
      | (Ret envs, out) => for_each body rest (envs, out)
      | (Raise e, out) => (Raise e, out)
      end
  end.

Definition venv_bases (home : Path.t) : list Path.t :=
  [ (home / ".virtualenvs")%path;
    (home / ".cache" / "pypoetry" / "virtualenvs")%path;
    (home / ".local" / "share" / "virtualenvs")%path ].

(** [scan_venv_dirs]: the result, and the lines printed. *)
Definition scan_venv_dirs (s : S) : outcome (list Environment) * list string :=
  match path_home s with
  | Raise e => (Raise e, [])
  | Ret home => for_each (scan_venv_base s) (venv_bases home) ([], [])
  end.

(** [data.get("envs", [])]: only a [dict] has [get]. *)
Fixpoint dict_get (members : list (string * json)) (key : string)
         (default : json) : json :=
  match members with
  | [] => default
  | (k, v) :: rest => if String.eqb k key then v else dict_get rest key default
  end.

Definition get_envs (data : json) : outcome json :=
  match data with
  | JObj members => Ret (dict_get members "envs" (JArr []))
  | _ => Raise (mkExn AttributeError "object has no attribute 'get'")
  end.

(** What [for path in v] ranges over. *)
Definition iterate (v : json) : outcome (list json) :=
  match v with
  | JArr items => Ret items
  | JStr str => Ret (map JStr (chars str))
  | JObj members => Ret (map (fun kv => JStr (fst kv)) members)
  | _ => Raise (mkExn TypeError "object is not iterable")
  end.

(** Lines 275-276: the loop over the reported paths; [Path(x)] wants a
    string. *)
Fixpoint conda_cli_entries (items : list json) (envs : list Environment)
  : list Environment * option exn :=
  match items with
  | [] => (envs, None)
  | JStr p :: rest =>
      conda_cli_entries rest
        (envs ++ [mkEnvironment (Path.name (Path.of_str p)) "Conda" p])
  | _ :: _ =>
      (envs, Some (mkExn TypeError "expected str, bytes or os.PathLike object"))
  end.

(** Lines 266-278: the branch taken when [conda] is on the search path. *)
Definition conda_cli_scan (s : S) (conda_path : string)
  : list Environment * list string :=
  match (data <- conda_env_list s conda_path ;;
         v <- get_envs data ;;
         iterate v) with
  | Raise exc => ([], [("Error scanning Conda via CLI: " ++ exn_str exc)%string])
  | Ret items =>
      match conda_cli_entries items [] with
      | (envs, None) => (envs, [])
      | (envs, Some exc) =>
          (envs, [("Error scanning Conda via CLI: " ++ exn_str exc)%string])
      end
  end.

(** Lines 289-292: the loop over the entries of one installation
    directory; an exception of one of the tests of lines 290-291 ends
    it. *)
Fixpoint conda_manual_entries (s : S) (base : Path.t) (entries : list string)
         (envs : list Environment) : list Environment * option exn :=
  match entries with
  | [] => (envs, None)
  | child :: rest =>
      let env_dir := (base / child)%path in
      match and_then (is_dir s env_dir)
                     (or_else (is_dir s (env_dir / "conda-meta")%path)
                              (path_exists s (env_dir / "bin" / "python")%path)) with
      | Raise e => (envs, Some e)
      | Ret true =>
          match resolve s env_dir with
          | Raise e => (envs, Some e)
          | Ret r =>
              conda_manual_entries s base rest
                (envs ++ [mkEnvironment (Path.name env_dir) "Conda" (Path.str r)])
          end
      | Ret false => conda_manual_entries s base rest envs
      end
  end.

(** Lines 287-294: one installation directory; the test of line 287 is
    outside the [try]. *)
Definition conda_manual_base (s : S) (base : Path.t)
           (acc : list Environment * list string)
  : outcome (list Environment) * list string :=
  let '(envs, out) := acc in
  match is_dir s base with
  | Raise e => (Raise e, out)
  | Ret false => (Ret envs, out)
  | Ret true =>
      match iterdir s base with
      | Raise exc => (Ret envs, out ++ [scan_error_line base exc])
      | Ret entries =>
          match conda_manual_entries s base entries envs with
          | (envs', None) => (Ret envs', out)
          | (envs', Some exc) => (Ret envs', out ++ [scan_error_line base exc])
          end
      end
  end.

Definition known_dirs (home : Path.t) : list Path.t :=
  [ (home / "miniconda3" / "envs")%path;
    (home / "anaconda3" / "envs")%path;
    (home / ".conda" / "envs")%path ].

(** Lines 280-294: the branch taken when [conda] is not found. *)
Definition conda_manual_scan (s : S) : outcome (list Environment) * list string :=
  let out0 := ["Conda CLI not found; performing manual scan."] in
  match path_home s with
  | Raise e => (Raise e, out0)
  | Ret home => for_each (conda_manual_base s) (known_dirs home) ([], out0)
  end.

Definition scan_conda_envs (s : S) : outcome (list Environment) * list string :=
  match which s "conda" with
  | Some conda_path =>
      let '(envs, out) := conda_cli_scan s conda_path in (Ret envs, out)
  | None => conda_manual_scan s
  end.

Definition scan_current_dir_venv (s : S) : outcome (list Environment) * list string :=
  (cwd <- path_cwd s ;;
   let potential := (cwd / ".venv")%path in
   marked <- and_then (is_dir s potential)
                      (path_exists s (potential / "pyvenv.cfg")%path) ;;
   if marked then
     r <- resolve s potential ;;
     Ret [mkEnvironment (Path.name cwd) "venv (local)" (Path.str r)]
   else Ret [],
   []).

(** [asyncio.gather(..., return_exceptions=flag)] over finished tasks: with
    the flag an exception is one more result, without it the first one is
    raised to the caller. *)
Fixpoint gather {A} (return_exceptions : bool) (tasks : list (outcome A))
  : outcome (list (outcome A)) :=
  match tasks with
  | [] => Ret []
  | t :: rest =>
      match t, return_exceptions with
      | Raise e, false => Raise e
      | _, _ => rs <- gather return_exceptions rest ;; Ret (t :: rs)
      end
  end.

(** Lines 231-235. *)
Fixpoint collect (results : list (outcome (list Environment)))
         (envs : list Environment) (out : list string)
  : list Environment * list string :=
  match results with
  | [] => (envs, out)
  | Raise exc :: rest =>
      collect rest envs (out ++ [("Error in scanning: " ++ exn_str exc)%string])
  | Ret result :: rest => collect rest (envs ++ result) out
  end.

Definition scan_all_environments (s : S) : outcome (list Environment) * list string :=
  let '(r1, o1) := scan_venv_dirs s in
  let '(r2, o2) := scan_conda_envs s in
  let '(r3, o3) := scan_current_dir_venv s in
  match gather true [r1; r2; r3] with
  | Raise e => (Raise e, o1 ++ o2 ++ o3)
  | Ret results =>
      let '(envs, out) := collect results [] (o1 ++ o2 ++ o3) in
      (Ret envs, out)
  end.

(** *** The caller's deduplication *)

(** [d[k] = v] on a [dict] kept in insertion order: a key already there
    keeps its place and takes the new value. *)
Fixpoint dict_set (d : list (string * Environment)) (k : string)
         (v : Environment) : list (string * Environment) :=
  match d with
  | [] => [(k, v)]
  | (k', v') :: rest =>
      if String.eqb k' k then (k', v) :: rest else (k', v') :: dict_set rest k v
  end.

(** Line 186: [{env.path: env for env in envs}], and its [values()]. *)
Definition by_path (envs : list Environment) : list (string * Environment) :=
  fold_left (fun d env => dict_set d (path env) env) envs [].

Definition unique_by_path (envs : list Environment) : list Environment :=
  map snd (by_path envs).

(** Lines 184-187 of [MainWindow.refresh_environments]: the new value of
    [self.all_envs], if the scan returned. *)
Definition refresh_environments (s : S) : option (list Environment) :=
  match fst (scan_all_environments s) with
  | Ret envs => Some (unique_by_path envs)
  | Raise _ => None
  end.

(** *** Deletion *)

Definition is_current_env (s : S) (env_path : string) : outcome bool :=
  try_except
    (exe <- resolve s (Path.of_str (sys_executable s)) ;;
     p <- resolve s (Path.of_str env_path) ;;
     Ret (startswith (Path.str exe) (Path.str p)))
    OSError_or_RuntimeError
    (fun _ => Ret false).

(** The inner [blocking_delete] of the Conda branch (lines 325-336). *)
Definition blocking_delete_conda (s : S) (env : Environment)
  : outcome (bool * string) * S :=
  match conda_env_remove s (path env) with
  | (Ret _, s') => (Ret (true, "Conda environment removed successfully."), s')
  | (Raise exc, s') =>
      (Ret (false, ("Error deleting Conda environment: " ++ exn_str exc)%string), s')
  end.

(** The inner [blocking_delete] of the other branch (lines 339-344). *)
Definition blocking_delete (s : S) (env : Environment)
  : outcome (bool * string) * S :=
  match rmtree s (path env) with
  | (Ret _, s') => (Ret (true, "Environment removed successfully."), s')
  | (Raise exc, s') =>
      (Ret (false, ("Error deleting environment: " ++ exn_str exc)%string), s')
  end.

Definition delete_environment (s : S) (env : Environment)
  : outcome (bool * string) * S :=
  match is_current_env s (path env) with
  | Raise e => (Raise e, s)
  | Ret true => (Ret (false, in_use_msg), s)
  | Ret false =>
      if String.eqb (env_type env) "Conda" then
        if String.eqb (lower (name env)) "base" then
          (Ret (false, base_msg), s)
        else blocking_delete_conda s env
      else blocking_delete s env
  end.

End Program.

(* ------------------------------------------------------------------ *)
(** ** A concrete host *)
(* ------------------------------------------------------------------ *)

(** A machine small enough to compute with: directories and files listed by
    their components from the root, no symbolic links, and a journal of the
    mutating calls it was asked to make. *)
Module Machine.

Record t : Type := mk {
  dirs : list (list string);
  files : list (list string);
  home : list string;
  cwd : list string;
  executable : string;
  (** [None]: no [conda] on the search path; [Some r]: [conda] is there
      and [r] is what listing the environments comes to. *)
  conda : option (outcome json);
  journal : list string
}.

Definition same (a b : list string) : bool :=
  Path.below a b && Path.below b a.

Definition absolute (m : t) (p : Path.t) : list string :=
  if Path.anchored p then Path.parts p else cwd m ++ Path.parts p.

Definition is_directory (m : t) (a : list string) : bool :=
  match a with
  | [] => true
  | _ => existsb (same a) (dirs m)
  end.

Definition is_present (m : t) (a : list string) : bool :=
  is_directory m a || existsb (same a) (files m).

(** The name of [node] if it sits directly in [a]. *)
Definition child_of (a node : list string) : list string :=
  if Path.below a node && (length node =? S (length a))%nat
  then [last node ""] else [].

Definition listing (m : t) (a : list string) : list string :=
  flat_map (child_of a) (dirs m ++ files m).

Definition no_such : exn := mkExn OSError "No such file or directory".

Definition log (m : t) (line : string) : t :=
  mk (dirs m) (files m) (home m) (cwd m) (executable m) (conda m)
     (journal m ++ [line]).

Definition prune (m : t) (a : list string) : t :=
  mk (filter (fun d => negb (Path.below a d)) (dirs m))
     (filter (fun f => negb (Path.below a f)) (files m))
     (home m) (cwd m) (executable m) (conda m) (journal m).

Definition remove_tree (m : t) (p : string) : outcome unit * t :=
  let a := absolute m (Path.of_str p) in
  if is_directory m a then (Ret tt, prune m a) else (Raise no_such, m).

#[global] Instance host : Host t := {
  sys_executable := executable;
  path_home m := Ret (Path.mk true (home m));
  path_cwd m := Ret (Path.mk true (cwd m));
  is_dir m p := Ret (is_directory m (absolute m p));
  path_exists m p := Ret (is_present m (absolute m p));
  iterdir m p :=
    if is_directory m (absolute m p)
    then Ret (listing m (absolute m p)) else Raise no_such;
  resolve m p := Ret (Path.mk true (absolute m p));
  which m cmd :=
    if String.eqb cmd "conda"
    then match conda m with Some _ => Some "/usr/bin/conda" | None => None end
    else None;
  conda_env_list m _ :=
    match conda m with Some r => r | None => Raise no_such end;
  conda_env_remove m p :=
    match conda m with
    | Some _ => remove_tree (log m ("conda env remove --prefix " ++ p)%string) p
    | None => (Raise no_such, m)
    end;
  rmtree m p := remove_tree (log m ("rmtree " ++ p)%string) p
}.

End Machine.

(* ------------------------------------------------------------------ *)
(** ** Sample machines *)
(* ------------------------------------------------------------------ *)

Module Samples.

Definition usr_bin : list (list string) := [ ["usr"]; ["usr"; "bin"] ].
Definition home_u : list (list string) := [ ["home"]; ["home"; "u"] ].

(** A project in [/tmp/project] with its own [.venv], run by the
    interpreter of that [.venv]; no Conda. *)
Definition project : Machine.t :=
  Machine.mk
    (home_u ++
     [ ["tmp"]; ["tmp"; "project"]; ["tmp"; "project"; ".venv"];
       ["tmp"; "project"; ".venv"; "bin"] ])
    [ ["tmp"; "project"; ".venv"; "pyvenv.cfg"];
      ["tmp"; "project"; ".venv"; "bin"; "python"] ]
    ["home"; "u"] ["tmp"; "project"]
    "/tmp/project/.venv/bin/python" None [].

(** The same with the project directory called [base]. *)
Definition base_project : Machine.t :=
  Machine.mk
    (home_u ++
     [ ["tmp"]; ["tmp"; "base"]; ["tmp"; "base"; ".venv"];
       ["tmp"; "base"; ".venv"; "bin"] ])
    [ ["tmp"; "base"; ".venv"; "pyvenv.cfg"];
      ["tmp"; "base"; ".venv"; "bin"; "python"] ]
    ["home"; "u"] ["tmp"; "base"]
    "/tmp/base/.venv/bin/python" None [].

(** [~/.virtualenvs] with five environments, two of which differ by a
    suffix and one of which is called [.venv]; [interpreter] runs the
    program, from [cwd]. *)
Definition virtualenvs (interpreter : string) (cwd : list string) : Machine.t :=
  Machine.mk
    (home_u ++ usr_bin ++
     [ ["home"; "u"; ".virtualenvs"];
       ["home"; "u"; ".virtualenvs"; ".venv"];
       ["home"; "u"; ".virtualenvs"; "myenv"];
       ["home"; "u"; ".virtualenvs"; "Base"];
       ["home"; "u"; ".virtualenvs"; "app"];
       ["home"; "u"; ".virtualenvs"; "app2"];
       ["home"; "u"; ".virtualenvs"; "app2"; "bin"] ])
    [ ["usr"; "bin"; "python3"];
      ["home"; "u"; ".virtualenvs"; ".venv"; "pyvenv.cfg"];
      ["home"; "u"; ".virtualenvs"; "myenv"; "pyvenv.cfg"];
      ["home"; "u"; ".virtualenvs"; "Base"; "pyvenv.cfg"];
      ["home"; "u"; ".virtualenvs"; "app"; "pyvenv.cfg"];
      ["home"; "u"; ".virtualenvs"; "app2"; "pyvenv.cfg"];
      ["home"; "u"; ".virtualenvs"; "app2"; "bin"; "python"] ]
    ["home"; "u"] cwd interpreter None [].

Definition system_python : Machine.t :=
  virtualenvs "/usr/bin/python3" ["home"; "u"].

Definition siblings : Machine.t :=
  virtualenvs "/home/u/.virtualenvs/app2/bin/python" ["home"; "u"].

(** A Conda installation in [/opt/base], which [conda env list] reports;
    [interpreter] runs the program. *)
Definition conda_installed (interpreter : string) : Machine.t :=
  Machine.mk
    (home_u ++ usr_bin ++
     [ ["opt"]; ["opt"; "base"]; ["opt"; "base"; "bin"];
       ["opt"; "base"; "conda-meta"] ])
    [ ["usr"; "bin"; "python3"]; ["opt"; "base"; "bin"; "python"] ]
    ["home"; "u"] ["home"; "u"] interpreter
    (Some (Ret (JObj [("envs", JArr [JStr "/opt/base"])]))) [].

Definition conda_running : Machine.t := conda_installed "/opt/base/bin/python".
Definition conda_idle : Machine.t := conda_installed "/usr/bin/python3".

(** The program started inside [~/.virtualenvs]. *)
Definition overlap : Machine.t :=
  virtualenvs "/usr/bin/python3" ["home"; "u"; ".virtualenvs"].

(** A home directory whose own name contains [local]. *)
Definition local_home : Machine.t :=
  Machine.mk
    (usr_bin ++
     [ ["home"]; ["home"; "localuser"];
       ["home"; "localuser"; ".virtualenvs"];
       ["home"; "localuser"; ".virtualenvs"; "myenv"] ])
    [ ["usr"; "bin"; "python3"];
      ["home"; "localuser"; ".virtualenvs"; "myenv"; "pyvenv.cfg"] ]
    ["home"; "localuser"] ["home"; "localuser"] "/usr/bin/python3" None [].

(** [~/miniconda3/envs/foo] with its [conda-meta]; [conda] says what the
    Conda command line does. *)
Definition miniconda (conda : option (outcome json)) : Machine.t :=
  Machine.mk
    (home_u ++ usr_bin ++
     [ ["home"; "u"; "miniconda3"];
       ["home"; "u"; "miniconda3"; "envs"];
       ["home"; "u"; "miniconda3"; "envs"; "foo"];
       ["home"; "u"; "miniconda3"; "envs"; "foo"; "conda-meta"] ])
    [ ["usr"; "bin"; "python3"] ]
    ["home"; "u"] ["home"; "u"] "/usr/bin/python3" conda [].

Definition no_conda : Machine.t := miniconda None.

(** [conda env list --json] exits with a non-zero status. *)
Definition broken_conda : Machine.t :=
  miniconda (Some (Raise (mkExn CalledProcessError
    "Command returned non-zero exit status 1."))).

(** [conda env list --json] prints something that is no JSON. *)
Definition garbled_conda : Machine.t :=
  miniconda (Some (Raise (mkExn ValueError
    "Expecting value: line 1 column 1 (char 0)"))).

(** [conda env list --json] still lists an environment whose directory is
    gone. *)
Definition stale_conda : Machine.t :=
  miniconda (Some (Ret (JObj [("envs",
    JArr [JStr "/home/u/miniconda3/envs/foo"; JStr "/home/u/miniconda3/envs/gone"])]))).

End Samples.

(** A host where nothing can be read: every call fails. *)
Module Offline.

Definition io_error : exn := mkExn OSError "Input/output error".

#[global] Instance host : Host unit := {
  sys_executable _ := "/usr/bin/python3";
  path_home _ := Raise (mkExn RuntimeError "Could not determine home directory.");
  path_cwd _ := Raise (mkExn OSError "No such file or directory");
  is_dir _ _ := Raise io_error;
  path_exists _ _ := Raise io_error;
  iterdir _ _ := Raise io_error;
  resolve _ _ := Raise io_error;
  which _ _ := None;
  conda_env_list _ _ := Raise io_error;
  conda_env_remove s _ := (Raise io_error, s);
  rmtree s _ := (Raise io_error, s)
}.

End Offline.

(* ------------------------------------------------------------------ *)
(** ** Notions the statements use *)
(* ------------------------------------------------------------------ *)

(** What a scanner contributed: its list if it returned, nothing if it
    raised. *)
Definition succeeded (r : outcome (list Environment)) : list Environment :=
  match r with
  | Ret envs => envs
  | Raise _ => []
  end.

(** The line printed for a scanner that raised. *)
Definition failure_lines (r : outcome (list Environment)) : list string :=
  match r with
  | Ret _ => []
  | Raise exc => [("Error in scanning: " ++ exn_str exc)%string]
  end.

(** The record [env] was made of [candidate]: [candidate] passed
    [is_dir], and the recorded path is the text of what it resolves to,
    which is a directory. *)
Definition recorded_from {S : Type} `{Host S} (s : S) (candidate : Path.t)
           (env : Environment) : Prop :=
  is_dir s candidate = Ret true /\
  exists r : Path.t,
    resolve s candidate = Ret r /\ path env = Path.str r /\
    is_dir s r = Ret true.

(** The keys of a dictionary, in its order. *)
Definition keys (d : list (string * Environment)) : list string := map fst d.

(** [e] is the last element of [envs] with its path. *)
Definition last_with_path (envs : list Environment) (e : Environment) : Prop :=
  exists l1 l2, envs = l1 ++ e :: l2 /\ ~ In (path e) (map path l2).

(* ------------------------------------------------------------------ *)
(** ** The window *)
(* ------------------------------------------------------------------ *)

(** A [QModelIndex]: whether it is valid, and its row and column, neither
    of which is negative in a valid index. *)
Record QModelIndex : Type := mkIndex { isValid : bool; row : nat; column : nat }.

(** [Qt.DisplayRole] *)
Definition DisplayRole : nat := 0.

(** [str(n)] for a length. *)
Definition str_of_nat (n : nat) : string := NilZero.string_of_uint (Nat.to_uint n).

Definition newline : string := String (ascii_of_nat 10) EmptyString.

Module EnvTableModel.

Record t : Type := mk { environments : list Environment; headers : list string }.

(** [__init__]: [environments or []], and the three headers. *)
Definition init (given : option (list Environment)) : t :=
  mk (match given with Some envs => envs | None => [] end)
     ["Name"; "Type"; "Path"].

Definition rowCount (m : t) : nat := length (environments m).

Definition columnCount (m : t) : nat := length (headers m).

(** [data]: the outer [None] is the [IndexError] of
    [self.environments[index.row()]], [Some None] the value [None]. *)
Definition data (m : t) (index : QModelIndex) (role : nat)
  : option (option string) :=
  if negb (isValid index) then Some None
  else
    match nth_error (environments m) (row index) with
    | None => None
    | Some env =>
        if (role =? DisplayRole)%nat then
          match column index with
          | 0 => Some (Some (name env))
          | 1 => Some (Some (env_type env))
          | 2 => Some (Some (path env))
          | _ => Some None
          end
        else Some None
    end.

Definition update_data (m : t) (envs : list Environment) : t :=
  mk envs (headers m).

End EnvTableModel.

(** The calls to [QMessageBox], with title and text. *)
Inductive QMessageBox : Type :=
| warning (title text : string)
| question (title text : string)
| information (title text : string)
| critical (title text : string).

Module MainWindow.

(** The part of the window the two coroutines write: the table model, the
    full list, and the message the status bar is left with. *)
Record t : Type := mk {
  env_table_model : EnvTableModel.t;
  all_envs : list Environment;
  status_bar : string
}.

(** [__init__], before the first refresh. *)
Definition init : t := mk (EnvTableModel.init None) [] "".

Section Coroutines.

Context {S : Type} `{Host S}.

(** [refresh_environments]: the window it leaves, and the lines the scan
    printed. *)
Definition refresh_environments (w : t) (s : S) : t * list string :=
  let '(r, out) := scan_all_environments s in
  match r with
  | Ret envs =>
      let unique := unique_by_path envs in
      (mk (EnvTableModel.update_data (env_table_model w) unique) unique
          ("Found " ++ str_of_nat (length unique) ++ " environments.")%string,
       out)
  | Raise exc =>
      (mk (env_table_model w) (all_envs w)
          ("Error scanning: " ++ exn_str exc)%string,
       out)
  end.

(** [delete_selected], given what Qt reports: the source row of the
    selected line, if any, and whether the question is answered with Yes.
    The result is the window, the machine, the message boxes shown and the
    lines printed; [None] is the [IndexError] of a row outside the model. *)
Definition delete_selected (w : t) (s : S) (selected : option nat)
           (reply_yes : bool)
  : option (t * S * list QMessageBox * list string) :=
  match selected with
  | None =>
      Some (w, s,
            [warning "No Selection" "Please select an environment to delete."],
            [])
  | Some source_row =>
      match nth_error (EnvTableModel.environments (env_table_model w)) source_row with
      | None => None
      | Some env =>
          let ask :=
            question "Confirm Deletion"
              ("Delete the " ++ env_type env ++ " environment '" ++ name env
               ++ "'?" ++ newline ++ "Path: " ++ path env)%string in
          if negb reply_yes then Some (w, s, [ask], [])
          else
            let '(r, s') := delete_environment s env in
            let shown :=
              match r with
              | Ret (true, message) => information "Deleted" message
              | Ret (false, message) => critical "Deletion Failed" message
              | Raise exc => critical "Deletion Error" (exn_str exc)
              end in
            let '(w', out) :=
              refresh_environments
                (mk (env_table_model w) (all_envs w) "Deleting environment...") s' in
            Some (w', s', [ask; shown], out)
      end
  end.

End Coroutines.

End MainWindow.

(* ------------------------------------------------------------------ *)
(** ** More hosts and notions *)
(* ------------------------------------------------------------------ *)

(** A host whose every read raises one and the same exception, which is
    its state. *)
Module Faulty.

#[global] Instance host : Host exn := {
  sys_executable _ := "/usr/bin/python3";
  path_home e := Raise e;
  path_cwd e := Raise e;
  is_dir e _ := Raise e;
  path_exists e _ := Raise e;
  iterdir e _ := Raise e;
  resolve e _ := Raise e;
  which _ _ := None;
  conda_env_list e _ := Raise e;
  conda_env_remove e _ := (Raise e, e);
  rmtree e _ := (Raise e, e)
}.

End Faulty.

(** The directories the tests of the repository build under [tmp_path]. *)
Module Fixtures.

(** [test_scan_venv_dirs]: [tmp_path/venv_test/pyvenv.cfg], with
    [Path.home()] patched to [tmp_path]. *)
Definition venv_in_home : Machine.t :=
  Machine.mk
    [ ["usr"]; ["usr"; "bin"]; ["tmp"]; ["tmp"; "t0"]; ["tmp"; "t0"; "venv_test"] ]
    [ ["usr"; "bin"; "python3"]; ["tmp"; "t0"; "venv_test"; "pyvenv.cfg"] ]
    ["tmp"; "t0"] ["tmp"; "t0"] "/usr/bin/python3" None [].

(** [test_scan_conda_envs_manual]:
    [tmp_path/miniconda3/envs/fake_conda_env/conda-meta], no [conda]. *)
Definition conda_in_home : Machine.t :=
  Machine.mk
    [ ["usr"]; ["usr"; "bin"]; ["tmp"]; ["tmp"; "t0"];
      ["tmp"; "t0"; "miniconda3"]; ["tmp"; "t0"; "miniconda3"; "envs"];
      ["tmp"; "t0"; "miniconda3"; "envs"; "fake_conda_env"];
      ["tmp"; "t0"; "miniconda3"; "envs"; "fake_conda_env"; "conda-meta"] ]
    [ ["usr"; "bin"; "python3"] ]
    ["tmp"; "t0"] ["tmp"; "t0"] "/usr/bin/python3" None [].

End Fixtures.

(** The five type tags. *)
Definition known_type (t : string) : Prop :=
  In t ["venv"; "venv (local)"; "Pipenv"; "Poetry"; "Conda"].

(** [env] is what line 254 makes of an entry of one of the three base
    directories that passed the test of line 252. *)
Definition venv_record {S : Type} `{Host S} (s : S) (home : Path.t)
           (env : Environment) : Prop :=
  exists base entries child r,
    In base (venv_bases home) /\
    is_dir s base = Ret true /\
    iterdir s base = Ret entries /\
    In child entries /\
    is_dir s (base / child)%path = Ret true /\
    path_exists s (base / child / "pyvenv.cfg")%path = Ret true /\
    resolve s (base / child)%path = Ret r /\
    env = mkEnvironment child (etype_of base) (Path.str r).

(** [env] is what line 292 makes of an entry of one of the three
    installation directories that passed the tests of lines 290-291. *)
Definition conda_dir_record {S : Type} `{Host S} (s : S) (home : Path.t)
           (env : Environment) : Prop :=
  exists base entries child r,
    In base (known_dirs home) /\
    is_dir s base = Ret true /\
    iterdir s base = Ret entries /\
    In child entries /\
    is_dir s (base / child)%path = Ret true /\
    or_else (is_dir s (base / child / "conda-meta")%path)
            (path_exists s (base / child / "bin" / "python")%path) = Ret true /\
    resolve s (base / child)%path = Ret r /\
    env = mkEnvironment child "Conda" (Path.str r).

(** The elements of [l] in order, each kept where it first occurs and
    only if it is not in [seen]. *)
Fixpoint fresh (seen l : list string) : list string :=
  match l with
  | [] => []
  | x :: rest =>
      if existsb (String.eqb x) seen then fresh seen rest
      else x :: fresh (seen ++ [x]) rest
  end.

(** What a base directory contributes to [scan_venv_dirs], and to the
    directory scan for Conda. *)
Definition venv_base_alone {S : Type} `{Host S} (s : S) (base : Path.t)
  : outcome (list Environment) * list string :=
  scan_venv_base s base ([], []).

Definition conda_base_alone {S : Type} `{Host S} (s : S) (base : Path.t)
  : outcome (list Environment) * list string :=
  conda_manual_base s base ([], []).

(** Results put one after the other, records and printed lines, up to the
    first that is an exception: it is the result then, with the lines
    printed so far. *)
Fixpoint chain (results : list (outcome (list Environment) * list string))
  : outcome (list Environment) * list string :=
  match results with
  | [] => (Ret [], [])
  | (Raise e, out) :: _ => (Raise e, out)
  | (Ret envs, out) :: rest =>
      (match fst (chain rest) with
       | Ret envs' => Ret (envs ++ envs')
       | Raise e => Raise e
       end,
       out ++ snd (chain rest))
  end.

(** The tests of the scanners returned: [is_dir] on each of [bases], and
    the test of line 252, or of lines 290-291, on each entry of a
    base. *)
Definition bases_examined {S : Type} `{Host S} (s : S) (bases : list Path.t) : Prop :=
  forall base, In base bases -> exists answer, is_dir s base = Ret answer.

Definition venv_entries_examined {S : Type} `{Host S} (s : S) (base : Path.t)
           (entries : list string) : Prop :=
  forall child,
    In child entries ->
    exists answer,
      and_then (is_dir s (base / child)%path)
               (path_exists s (base / child / "pyvenv.cfg")%path) = Ret answer.

Definition conda_entries_examined {S : Type} `{Host S} (s : S) (base : Path.t)
           (entries : list string) : Prop :=
  forall child,
    In child entries ->
    exists answer,
      and_then (is_dir s (base / child)%path)
               (or_else (is_dir s (base / child / "conda-meta")%path)
                        (path_exists s (base / child / "bin" / "python")%path))
        = Ret answer.

(** [env] is what line 254 makes of an entry [child] of [base], listed in
    [entries], that passed the test of line 252; and the same for
    line 292 and the tests of lines 290-291. *)
Definition venv_made {S : Type} `{Host S} (s : S) (base : Path.t)
           (entries : list string) (env : Environment) : Prop :=
  exists child r,
    In child entries /\
    is_dir s (base / child)%path = Ret true /\
    path_exists s (base / child / "pyvenv.cfg")%path = Ret true /\
    resolve s (base / child)%path = Ret r /\
    env = mkEnvironment child (etype_of base) (Path.str r).

Definition conda_made {S : Type} `{Host S} (s : S) (base : Path.t)
           (entries : list string) (env : Environment) : Prop :=
  exists child r,
    In child entries /\
    is_dir s (base / child)%path = Ret true /\
    or_else (is_dir s (base / child / "conda-meta")%path)
            (path_exists s (base / child / "bin" / "python")%path) = Ret true /\
    resolve s (base / child)%path = Ret r /\
    env = mkEnvironment child "Conda" (Path.str r).

(** The record line 276 makes of a listed path. *)
Definition listed_record (p : string) : Environment :=
  mkEnvironment (Path.name (Path.of_str p)) "Conda" p.

(** The strings at the head of a list of JSON values, up to the first
    element that is no string; and whether there is no such element. *)
Fixpoint listed_prefix (items : list json) : list string :=
  match items with
  | JStr p :: rest => p :: listed_prefix rest
  | _ => []
  end.

Fixpoint all_strings (items : list json) : bool :=
  match items with
  | [] => true
  | JStr _ :: rest => all_strings rest
  | _ :: _ => false
  end.

(** What lines 274-275 take from the answer of the Conda command line
    before the loop starts. *)
Definition listed_items {S : Type} `{Host S} (s : S) (conda_path : string)
  : outcome (list json) :=
  data <- conda_env_list s conda_path ;;
  v <- get_envs data ;;
  iterate v.

(** A machine some of whose directories cannot be searched: what lies
    below one of them cannot be examined, [is_dir] and [exists] raise a
    [PermissionError] there. *)
Module Locked.

Record t : Type := mk { machine : Machine.t; unsearchable : list (list string) }.

Definition denied : exn := mkExn OSError "[Errno 13] Permission denied".

(** [a] lies strictly below one of the unsearchable directories. *)
Definition hidden (g : t) (a : list string) : bool :=
  existsb (fun d => Path.below d a && (length d <? length a)%nat)
          (unsearchable g).

Definition after (g : t) (r : outcome unit * Machine.t) : outcome unit * t :=
  (fst r, mk (snd r) (unsearchable g)).

#[global] Instance host : Host t := {
  sys_executable g := sys_executable (machine g);
  path_home g := path_home (machine g);
  path_cwd g := path_cwd (machine g);
  is_dir g p :=
    if hidden g (Machine.absolute (machine g) p) then Raise denied
    else is_dir (machine g) p;
  path_exists g p :=
    if hidden g (Machine.absolute (machine g) p) then Raise denied
    else path_exists (machine g) p;
  iterdir g p := iterdir (machine g) p;
  resolve g p := resolve (machine g) p;
  which g cmd := which (machine g) cmd;
  conda_env_list g conda_path := conda_env_list (machine g) conda_path;
  conda_env_remove g p := after g (conda_env_remove (machine g) p);
  rmtree g p := after g (rmtree (machine g) p)
}.

End Locked.

(** More machines. *)
Module Cases.

(** [/tmp/project/.venv] holds a directory called [pyvenv.cfg], and no
    file. *)
Definition marker_is_directory : Machine.t :=
  Machine.mk
    [ ["home"]; ["home"; "u"]; ["usr"]; ["usr"; "bin"];
      ["tmp"]; ["tmp"; "project"]; ["tmp"; "project"; ".venv"];
      ["tmp"; "project"; ".venv"; "pyvenv.cfg"] ]
    [ ["usr"; "bin"; "python3"] ]
    ["home"; "u"] ["tmp"; "project"] "/usr/bin/python3" None [].

(** [/tmp/project/.venv] cannot be searched. *)
Definition locked_venv : Locked.t :=
  Locked.mk
    (Machine.mk
       [ ["home"]; ["home"; "u"]; ["usr"]; ["usr"; "bin"];
         ["tmp"]; ["tmp"; "project"]; ["tmp"; "project"; ".venv"] ]
       [ ["usr"; "bin"; "python3"]; ["tmp"; "project"; ".venv"; "pyvenv.cfg"] ]
       ["home"; "u"] ["tmp"; "project"] "/usr/bin/python3" None [])
    [ ["tmp"; "project"; ".venv"] ].

(** [~/.virtualenvs/myenv] is in place, and [~/.cache] cannot be
    searched. *)
Definition locked_cache : Locked.t :=
  Locked.mk
    (Machine.mk
       [ ["home"]; ["home"; "u"]; ["usr"]; ["usr"; "bin"];
         ["home"; "u"; ".cache"]; ["home"; "u"; ".cache"; "pypoetry"];
         ["home"; "u"; ".virtualenvs"]; ["home"; "u"; ".virtualenvs"; "myenv"] ]
       [ ["usr"; "bin"; "python3"];
         ["home"; "u"; ".virtualenvs"; "myenv"; "pyvenv.cfg"] ]
       ["home"; "u"] ["home"; "u"] "/usr/bin/python3" None [])
    [ ["home"; "u"; ".cache"] ].

End Cases.

(* ------------------------------------------------------------------ *)
(** ** The concrete host is lawful *)
(* ------------------------------------------------------------------ *)

#[global] Instance Machine_laws : HostLaws Machine.t.
Proof.
  constructor. intros m p Hd. exists (Path.mk true (Machine.absolute m p)).
  split; [reflexivity | exact Hd].
Qed.

#[global] Instance Locked_laws : HostLaws Locked.t.
Proof.
  constructor. intros g p Hd.
  exists (Path.mk true (Machine.absolute (Locked.machine g) p)).
  split; [reflexivity | exact Hd].
Qed.

(** On the concrete host no test raises. *)
Lemma Machine_bases_examined (m : Machine.t) (bases : list Path.t) :
  bases_examined m bases.
Proof. intros base _. eexists. reflexivity. Qed.

Lemma Machine_venv_entries_examined (m : Machine.t) (base : Path.t)
      (entries : list string) :
  venv_entries_examined m base entries.
Proof.
  intros child _. unfold and_then, bind.
  destruct (is_dir m (base / child)%path) as [[|] | e] eqn:Hd;
    try (eexists; reflexivity); discriminate Hd.
Qed.

Lemma Machine_conda_entries_examined (m : Machine.t) (base : Path.t)
      (entries : list string) :
  conda_entries_examined m base entries.
Proof.
  intros child _. unfold and_then, or_else, bind.
  destruct (is_dir m (base / child)%path) as [[|] | e] eqn:Hd;
    [| eexists; reflexivity | discriminate Hd].
  destruct (is_dir m (base / child / "conda-meta")%path) as [[|] | e'] eqn:Hd';
    try (eexists; reflexivity); discriminate Hd'.
Qed.

(* ------------------------------------------------------------------ *)
(** ** Deletion and its guards *)
(* ------------------------------------------------------------------ *)

Lemma casing_of_base_lower (n : string) :
  casing_of "base" n -> lower n = "base".
Proof.
  unfold casing_of.
  destruct n as [|c1 [|c2 [|c3 [|c4 [|c5 n]]]]]; simpl; intros F;
    repeat match goal with
           | F : Forall2 _ _ _ |- _ => inversion F; clear F; subst
           end.
  repeat match goal with
         | D : _ \/ _ |- _ => destruct D; subst
         end; reflexivity.
Qed.

Section Deletion.

Context {S : Type} `{Host S}.

(** A failed resolution of either path, of the two classes the [except]
    clause names, is answered with [False]. *)
Lemma is_current_env_resolution_failure (s : S) (env_path : string) (e : exn) :
  OSError_or_RuntimeError (exn_cls e) = true ->
  resolve s (Path.of_str (sys_executable s)) = Raise e
  \/ ((exists exe, resolve s (Path.of_str (sys_executable s)) = Ret exe)
      /\ resolve s (Path.of_str env_path) = Raise e) ->
  is_current_env s env_path = Ret false.
Proof.
  intros Hc [He | [[exe He] Hp]]; unfold is_current_env;
    rewrite He; simpl; [| rewrite Hp; simpl]; rewrite Hc; reflexivity.
Qed.

Lemma delete_environment_not_current (s : S) (env : Environment) :
  is_current_env s (path env) = Ret false ->
  delete_environment s env =
    if String.eqb (env_type env) "Conda" then
      if String.eqb (lower (name env)) "base"
      then (Ret (false, base_msg), s)
      else blocking_delete_conda s env
    else blocking_delete s env.
Proof.
  intros Hc. unfold delete_environment. rewrite Hc. reflexivity.
Qed.

(** C3. Deleting the environment the program runs from: whenever
    [is_current_env] answers true for the environment's path,
    [delete_environment] returns failure with the in-use message and the
    machine is left exactly as it was, whatever [rmtree] and the Conda
    removal would have done to it. *)
Theorem delete_environment_in_use (s : S) (env : Environment) :
  is_current_env s (path env) = Ret true ->
  delete_environment s env =
    (Ret (false, "Cannot delete the environment currently in use."), s).
Proof.
  intros Hc. unfold delete_environment. rewrite Hc. reflexivity.
Qed.

(** C4, amended. A Conda environment named [base] in any letter casing
    is never deleted, and nothing is done to the machine.  When
    [is_current_env] returns, the answer is a failure: with the
    base-environment message if the path is not the running environment,
    with the in-use message if it is, that guard being tried first.  When
    [is_current_env] raises, which it does for an exception of [resolve]
    that is neither an [OSError] nor a [RuntimeError], [delete_environment]
    raises that exception. *)
Theorem delete_environment_conda_base (s : S) (env : Environment) :
  env_type env = "Conda" ->
  casing_of "base" (name env) ->
  delete_environment s env =
    (match is_current_env s (path env) with
     | Ret true =>
         Ret (false, "Cannot delete the environment currently in use.")
     | Ret false =>
         Ret (false, "Cannot delete the Conda base environment.")
     | Raise e => Raise e
     end, s).
Proof.
  intros Ht Hn. unfold delete_environment.
  destruct (is_current_env s (path env)) as [[|] | e]; try reflexivity.
  rewrite Ht, (casing_of_base_lower _ Hn). reflexivity.
Qed.

(** C10, amended. The base-name guard is for the type ["Conda"] only: an
    environment of any other type named [base], in any casing, whose
    path is not the running environment is handed to [rmtree], and the
    answer reports what [rmtree] did. *)
Theorem delete_environment_base_other_type (s : S) (env : Environment) :
  env_type env <> "Conda" ->
  casing_of "base" (name env) ->
  is_current_env s (path env) = Ret false ->
  exists (r : outcome unit) (s' : S),
    rmtree s (path env) = (r, s') /\
    delete_environment s env =
      (Ret match r with
           | Ret _ => (true, "Environment removed successfully.")
           | Raise exc =>
               (false, ("Error deleting environment: " ++ exn_str exc)%string)
           end, s').
Proof.
  intros Ht _ Hc. rewrite (delete_environment_not_current _ _ Hc).
  destruct (String.eqb_spec (env_type env) "Conda") as [E | _]; [contradiction |].
  unfold blocking_delete.
  destruct (rmtree s (path env)) as [r s'] eqn:Er.
  exists r, s'. split; [reflexivity |]. destruct r; reflexivity.
Qed.

End Deletion.

Lemma delete_environment_in_use_witness :
  let env := mkEnvironment "project" "venv (local)" "/tmp/project/.venv" in
  is_current_env Samples.project (path env) = Ret true /\
  delete_environment Samples.project env =
    (Ret (false, "Cannot delete the environment currently in use."),
     Samples.project).
Proof.
  intros env. split; [reflexivity |].
  apply (delete_environment_in_use Samples.project env). reflexivity.
Defined.

(** C4 as stated fails where the Conda installation that runs the program
    is itself in a directory called [base]: the scanner reports it under
    the name [base], and deleting it is refused with the in-use message,
    not the base-environment one.  And where resolving raises a
    [ValueError], as for a path with a NUL byte, there is no answer at
    all: [delete_environment] raises. *)
Lemma delete_environment_conda_base_running :
  let env := mkEnvironment "base" "Conda" "/opt/base" in
  let nul := mkExn ValueError "embedded null byte" in
  fst (scan_conda_envs Samples.conda_running) = Ret [env] /\
  delete_environment Samples.conda_running env =
    (Ret (false, "Cannot delete the environment currently in use."),
     Samples.conda_running) /\
  fst (delete_environment Samples.conda_running env) <>
    Ret (false, "Cannot delete the Conda base environment.") /\
  delete_environment nul (mkEnvironment "BASE" "Conda" "/opt/conda") =
    (Raise nul, nul).
Proof.
  intros env nul. split; [reflexivity |]. split; [reflexivity |].
  split; [vm_compute; discriminate | reflexivity].
Defined.

Lemma delete_environment_conda_base_witness :
  let env := mkEnvironment "BaSe" "Conda" "/opt/base" in
  env_type env = "Conda" /\
  casing_of "base" (name env) /\
  is_current_env Samples.conda_idle (path env) = Ret false /\
  delete_environment Samples.conda_idle env =
    (Ret (false, "Cannot delete the Conda base environment."),
     Samples.conda_idle).
Proof.
  intros env.
  assert (Hn : casing_of "base" (name env)).
  { unfold casing_of; simpl.
    repeat constructor; (left; reflexivity) || (right; reflexivity). }
  split; [reflexivity |]. split; [exact Hn |]. split; [reflexivity |].
  rewrite (delete_environment_conda_base Samples.conda_idle env eq_refl Hn).
  reflexivity.
Defined.

(** C10 as stated fails for an environment of another type that is named
    [base] and is the running one: the local scanner names the [.venv] of
    [/tmp/base] so, and deleting it is refused before [rmtree] is reached;
    nothing is entered in the journal. *)
Lemma delete_environment_base_other_type_running :
  let env := mkEnvironment "base" "venv (local)" "/tmp/base/.venv" in
  fst (scan_current_dir_venv Samples.base_project) = Ret [env] /\
  delete_environment Samples.base_project env =
    (Ret (false, "Cannot delete the environment currently in use."),
     Samples.base_project) /\
  Machine.journal (snd (delete_environment Samples.base_project env)) = [] /\
  Machine.journal (snd (rmtree Samples.base_project (path env))) =
    ["rmtree /tmp/base/.venv"].
Proof.
  intros env. repeat split; reflexivity.
Defined.

Lemma delete_environment_base_other_type_witness :
  let env := mkEnvironment "Base" "venv" "/home/u/.virtualenvs/Base" in
  env_type env <> "Conda" /\
  casing_of "base" (name env) /\
  is_current_env Samples.system_python (path env) = Ret false /\
  exists s',
    delete_environment Samples.system_python env =
      (Ret (true, "Environment removed successfully."), s') /\
    is_dir s' (Path.of_str (path env)) = Ret false /\
    Machine.journal s' = ["rmtree /home/u/.virtualenvs/Base"].
Proof.
  intros env.
  assert (Ht : env_type env <> "Conda") by (vm_compute; discriminate).
  assert (Hn : casing_of "base" (name env)).
  { unfold casing_of; simpl.
    repeat constructor; (left; reflexivity) || (right; reflexivity). }
  assert (Hc : is_current_env Samples.system_python (path env) = Ret false)
    by reflexivity.
  split; [exact Ht |]. split; [exact Hn |]. split; [exact Hc |].
  destruct (delete_environment_base_other_type Samples.system_python env
              Ht Hn Hc) as (r & s' & Hr & Hd).
  exists s'. vm_compute in Hr. inversion Hr; subst r s'; clear Hr.
  split; [exact Hd |]. split; reflexivity.
Defined.

(** C2, at the input where the code departs from it.  The program runs
    from [~/.virtualenvs/app2]; [~/.virtualenvs/app] is no ancestor of the
    interpreter, yet its text is a prefix of the interpreter's path and
    [is_current_env] answers true. *)
Theorem is_current_env_sibling_prefix :
  is_current_env Samples.siblings "/home/u/.virtualenvs/app" = Ret true /\
  Path.below (Path.parts (Path.of_str "/home/u/.virtualenvs/app"))
             (Path.parts (Path.of_str (sys_executable Samples.siblings)))
    = false /\
  fst (delete_environment Samples.siblings
         (mkEnvironment "app" "venv" "/home/u/.virtualenvs/app")) =
    Ret (false, "Cannot delete the environment currently in use.").
Proof.
  repeat split; reflexivity.
Qed.

(* ------------------------------------------------------------------ *)
(** ** The dictionary of the caller *)
(* ------------------------------------------------------------------ *)

Section Dict.

Lemma dict_set_keys_old (d : list (string * Environment)) k v :
  In k (keys d) -> keys (dict_set d k v) = keys d.
Proof.
  induction d as [| [k' v'] d IH]; simpl; [intros [] |].
  destruct (String.eqb_spec k' k) as [-> | Hne]; simpl; [reflexivity |].
  intros [E | Hin]; [contradiction |]. rewrite (IH Hin). reflexivity.
Qed.

Lemma dict_set_keys_new (d : list (string * Environment)) k v :
  ~ In k (keys d) -> keys (dict_set d k v) = keys d ++ [k].
Proof.
  induction d as [| [k' v'] d IH]; simpl; [reflexivity |].
  intros Hn. destruct (String.eqb_spec k' k) as [-> | Hne]; simpl.
  - exfalso. apply Hn. left. reflexivity.
  - rewrite IH; [reflexivity |]. intros Hin. apply Hn. right. exact Hin.
Qed.

Lemma dict_set_NoDup (d : list (string * Environment)) k v :
  NoDup (keys d) -> NoDup (keys (dict_set d k v)).
Proof.
  intros Hd. destruct (in_dec string_dec k (keys d)) as [Hin | Hn].
  - rewrite (dict_set_keys_old _ _ _ Hin). exact Hd.
  - rewrite (dict_set_keys_new _ _ _ Hn).
    apply NoDup_app; [exact Hd | repeat constructor; intros [] |].
    intros x Hx [<- | []]. exact (Hn Hx).
Qed.

Lemma dict_set_In (d : list (string * Environment)) k v k' v' :
  NoDup (keys d) ->
  In (k', v') (dict_set d k v) <->
  (k' = k /\ v' = v) \/ (k' <> k /\ In (k', v') d).
Proof.
  induction d as [| [k0 v0] d IH]; simpl; intros Hd.
  - split.
    + intros [E | []]. inversion E; subst. left. split; reflexivity.
    + intros [[-> ->] | [_ []]]. left. reflexivity.
  - inversion Hd as [| ? ? Hnin Hd']; subst.
    destruct (String.eqb_spec k0 k) as [-> | Hne]; simpl.
    + split.
      * intros [E | Hin].
        -- inversion E; subst. left. split; reflexivity.
        -- right. split; [| right; exact Hin].
           intros ->. apply Hnin. exact (in_map fst _ _ Hin).
      * intros [[-> ->] | [Hk [E | Hin]]].
        -- left. reflexivity.
        -- inversion E; subst. contradiction.
        -- right. exact Hin.
    + rewrite (IH Hd'). split.
      * intros [E | [Hl | [Hk Hin]]].
        -- inversion E; subst. right. split; [exact Hne | left; reflexivity].
        -- left. exact Hl.
        -- right. split; [exact Hk | right; exact Hin].
      * intros [Hl | [Hk [E | Hin]]].
        -- right. left. exact Hl.
        -- left. exact E.
        -- right. right. split; assumption.
Qed.

(** The dictionary built from [envs] has each path once, and under it the
    last environment of [envs] with that path. *)
Lemma by_path_spec (envs : list Environment) :
  NoDup (keys (by_path envs)) /\
  forall k v, In (k, v) (by_path envs) <-> (path v = k /\ last_with_path envs v).
Proof.
  unfold by_path.
  induction envs as [| x l [IHn IHi]] using rev_ind.
  - split; [constructor |]. intros k v. simpl. split; [intros [] |].
    intros [_ (l1 & l2 & E & _)]. destruct l1; discriminate.
  - rewrite fold_left_app. simpl. split; [apply dict_set_NoDup, IHn |].
    intros k v. rewrite (dict_set_In _ _ _ _ _ IHn), IHi. split.
    + intros [[-> ->] | [Hk [Hp (l1 & l2 & -> & Hn)]]].
      * split; [reflexivity |]. exists l, []. split; [reflexivity | intros []].
      * split; [exact Hp |]. exists l1, (l2 ++ [x]).
        split; [rewrite <- app_assoc; reflexivity |].
        rewrite map_app, in_app_iff. intros [Hin | [Hin | []]].
        -- exact (Hn Hin).
        -- apply Hk. rewrite <- Hp. symmetry. exact Hin.
    + intros [Hp (l1 & l2 & E & Hn)].
      destruct l2 as [| y l2' _] using rev_ind.
      * apply app_inj_tail in E. destruct E as [_ ->]. left.
        split; [symmetry; exact Hp | reflexivity].
      * change (l1 ++ v :: l2' ++ [y]) with (l1 ++ (v :: l2') ++ [y]) in E.
        rewrite app_assoc in E. apply app_inj_tail in E.
        destruct E as [-> ->]. rewrite map_app, in_app_iff in Hn.
        right. split.
        -- intros Hk. apply Hn. right. left. rewrite Hp. symmetry. exact Hk.
        -- split; [exact Hp |]. exists l1, l2'. split; [reflexivity |].
           intros Hin. apply Hn. left. exact Hin.
Qed.

Lemma unique_by_path_In (envs : list Environment) (e : Environment) :
  In e (unique_by_path envs) <-> last_with_path envs e.
Proof.
  unfold unique_by_path.
  destruct (by_path_spec envs) as [_ Hi]. rewrite in_map_iff. split.
  - intros ([k v] & <- & Hin). apply Hi in Hin. exact (proj2 Hin).
  - intros Hl. exists (path e, e). split; [reflexivity |].
    apply Hi. split; [reflexivity | exact Hl].
Qed.

Lemma unique_by_path_NoDup (envs : list Environment) :
  NoDup (map path (unique_by_path envs)).
Proof.
  unfold unique_by_path.
  destruct (by_path_spec envs) as [Hn Hi].
  replace (map path (map snd (by_path envs))) with (keys (by_path envs));
    [exact Hn |].
  unfold keys. rewrite map_map. apply map_ext_in.
  intros [k v] Hin. apply Hi in Hin. simpl. symmetry. exact (proj1 Hin).
Qed.

(** Every path of [envs] has a last environment carrying it. *)
Lemma last_with_path_exists (envs : list Environment) (p : string) :
  In p (map path envs) -> exists e, path e = p /\ last_with_path envs e.
Proof.
  induction envs as [| x l IH]; simpl; [intros [] |].
  destruct (in_dec string_dec p (map path l)) as [Hin | Hnin].
  - intros _. destruct (IH Hin) as (e & Hp & l1 & l2 & -> & Hn).
    exists e. split; [exact Hp |]. exists (x :: l1), l2.
    split; [reflexivity | exact Hn].
  - intros [Hx | Hin]; [| contradiction].
    exists x. split; [exact Hx |]. exists [], l.
    split; [reflexivity |]. rewrite Hx. exact Hnin.
Qed.

Lemma unique_by_path_paths (envs : list Environment) (p : string) :
  In p (map path envs) <-> In p (map path (unique_by_path envs)).
Proof.
  split.
  - intros Hin. destruct (last_with_path_exists _ _ Hin) as (e & <- & Hl).
    apply in_map, unique_by_path_In, Hl.
  - rewrite in_map_iff. intros (e & <- & Hin).
    apply unique_by_path_In in Hin. destruct Hin as (l1 & l2 & -> & _).
    rewrite map_app, in_app_iff. right. left. reflexivity.
Qed.

End Dict.

(* ------------------------------------------------------------------ *)
(** ** The orchestrator *)
(* ------------------------------------------------------------------ *)

Section Orchestrator.

Context {S : Type} `{Host S}.

Lemma collect_app (results : list (outcome (list Environment))) :
  forall envs out,
    collect results envs out =
      (envs ++ flat_map succeeded results, out ++ flat_map failure_lines results).
Proof.
  induction results as [| [result | exc] rest IH]; intros envs out; simpl.
  - rewrite !app_nil_r. reflexivity.
  - rewrite IH, <- app_assoc. reflexivity.
  - rewrite IH, <- app_assoc. reflexivity.
Qed.

Lemma gather_return_exceptions {A} (tasks : list (outcome A)) :
  gather true tasks = Ret tasks.
Proof.
  induction tasks as [| t rest IH]; simpl; [reflexivity |].
  rewrite IH. destruct t; reflexivity.
Qed.

(** What [scan_all_environments] comes to, in terms of its three scans. *)
Lemma scan_all_environments_eq (s : S) :
  scan_all_environments s =
    (Ret (succeeded (fst (scan_venv_dirs s))
          ++ succeeded (fst (scan_conda_envs s))
          ++ succeeded (fst (scan_current_dir_venv s))),
     snd (scan_venv_dirs s) ++ snd (scan_conda_envs s)
     ++ snd (scan_current_dir_venv s)
     ++ failure_lines (fst (scan_venv_dirs s))
     ++ failure_lines (fst (scan_conda_envs s))
     ++ failure_lines (fst (scan_current_dir_venv s))).
Proof.
  unfold scan_all_environments.
  destruct (scan_venv_dirs s) as [r1 o1], (scan_conda_envs s) as [r2 o2],
           (scan_current_dir_venv s) as [r3 o3].
  rewrite gather_return_exceptions, collect_app. simpl.
  rewrite !app_nil_r, <- !app_assoc. reflexivity.
Qed.

(** C8. [scan_all_environments] returns whatever its scanners do: a
    scanner that raised contributes no record and one printed line
    ["Error in scanning: ..."], and the records of the others are all
    there, in the order of the scanners. *)
Theorem scan_all_environments_never_raises (s : S) :
  fst (scan_all_environments s) =
    Ret (succeeded (fst (scan_venv_dirs s))
         ++ succeeded (fst (scan_conda_envs s))
         ++ succeeded (fst (scan_current_dir_venv s)))
  /\ exists printed_by_scanners,
      snd (scan_all_environments s) =
        printed_by_scanners
        ++ failure_lines (fst (scan_venv_dirs s))
        ++ failure_lines (fst (scan_conda_envs s))
        ++ failure_lines (fst (scan_current_dir_venv s)).
Proof.
  rewrite scan_all_environments_eq. simpl. split; [reflexivity |].
  exists (snd (scan_venv_dirs s) ++ snd (scan_conda_envs s)
          ++ snd (scan_current_dir_venv s)).
  rewrite <- !app_assoc. reflexivity.
Qed.

(** C1, amended. [scan_all_environments] returns the lists of its
    scanners one after the other and removes nothing; it is its caller
    [refresh_environments] that keeps one environment for each path, the
    last one the scan returned with that path. *)
Theorem refresh_environments_deduplicates (s : S) :
  exists envs,
    fst (scan_all_environments s) = Ret envs /\
    envs = succeeded (fst (scan_venv_dirs s))
           ++ succeeded (fst (scan_conda_envs s))
           ++ succeeded (fst (scan_current_dir_venv s)) /\
    refresh_environments s = Some (unique_by_path envs) /\
    NoDup (map path (unique_by_path envs)) /\
    (forall p, In p (map path envs) <-> In p (map path (unique_by_path envs))) /\
    (forall e, In e (unique_by_path envs) <-> last_with_path envs e).
Proof.
  eexists. split; [rewrite scan_all_environments_eq; reflexivity |].
  split; [reflexivity |].
  split; [unfold refresh_environments; rewrite scan_all_environments_eq;
          reflexivity |].
  split; [apply unique_by_path_NoDup |].
  split; [apply unique_by_path_paths | apply unique_by_path_In].
Qed.

End Orchestrator.

(** Three scanners that all raise: the scan still returns, with no record
    and a line for each. *)
Example scan_all_environments_offline :
  scan_all_environments tt =
    (Ret [],
     [ "Conda CLI not found; performing manual scan.";
       "Error in scanning: Could not determine home directory.";
       "Error in scanning: Could not determine home directory.";
       "Error in scanning: No such file or directory" ]).
Proof. reflexivity. Qed.

(** C1 as stated fails when the program is started inside
    [~/.virtualenvs] and that directory holds an environment called
    [.venv]: the venv scanner and the local scanner both report its path,
    and the list returned has both records. *)
Lemma scan_all_environments_keeps_both :
  let p := "/home/u/.virtualenvs/.venv" in
  let by_venv_scan := mkEnvironment ".venv" "venv" p in
  let by_local_scan := mkEnvironment ".virtualenvs" "venv (local)" p in
  In by_venv_scan (succeeded (fst (scan_venv_dirs Samples.overlap))) /\
  In by_local_scan (succeeded (fst (scan_current_dir_venv Samples.overlap))) /\
  exists envs,
    fst (scan_all_environments Samples.overlap) = Ret envs /\
    filter (fun e => String.eqb (path e) p) envs = [by_venv_scan; by_local_scan] /\
    ~ NoDup (map path envs).
Proof.
  intros p by_venv_scan by_local_scan.
  split; [vm_compute; left; reflexivity |].
  split; [vm_compute; left; reflexivity |].
  eexists. split; [vm_compute; reflexivity |].
  split; [reflexivity |].
  intros Hn. simpl in Hn. inversion Hn as [| ? ? Hnin _]; subst.
  apply Hnin. simpl. do 4 right. left. reflexivity.
Defined.

Example refresh_environments_overlap :
  refresh_environments Samples.overlap =
    Some [ mkEnvironment ".virtualenvs" "venv (local)" "/home/u/.virtualenvs/.venv";
           mkEnvironment "myenv" "venv" "/home/u/.virtualenvs/myenv";
           mkEnvironment "Base" "venv" "/home/u/.virtualenvs/Base";
           mkEnvironment "app" "venv" "/home/u/.virtualenvs/app";
           mkEnvironment "app2" "venv" "/home/u/.virtualenvs/app2" ].
Proof. reflexivity. Qed.

(* ------------------------------------------------------------------ *)
(** ** The scanners *)
(* ------------------------------------------------------------------ *)

Lemma name_joinpath (p : Path.t) (child : string) :
  Path.name (p / child)%path = child.
Proof. unfold Path.name, Path.joinpath. simpl. apply last_last. Qed.

Lemma and_then_true (a b : outcome bool) :
  and_then a b = Ret true <-> a = Ret true /\ b = Ret true.
Proof.
  unfold and_then, bind. destruct a as [[|] | e]; split;
    try discriminate; try (intros [Ha _]; discriminate).
  - intros Hb. split; [reflexivity | exact Hb].
  - intros [_ Hb]. exact Hb.
Qed.

(** *** Results in a row *)

Lemma chain_returns (results : list (outcome (list Environment) * list string)) :
  (forall r, In r results -> exists envs, fst r = Ret envs) ->
  chain results =
    (Ret (flat_map (fun r => succeeded (fst r)) results), flat_map snd results).
Proof.
  induction results as [| [[envs | e] out] rest IH]; intros Hall; simpl;
    [reflexivity | |].
  - rewrite IH; [reflexivity |]. intros r Hr. apply Hall. right. exact Hr.
  - destruct (Hall _ (or_introl eq_refl)) as [envs He]. discriminate.
Qed.

Lemma chain_Forall (P : Environment -> Prop)
      (results : list (outcome (list Environment) * list string)) :
  (forall r, In r results -> Forall P (succeeded (fst r))) ->
  Forall P (succeeded (fst (chain results))).
Proof.
  induction results as [| [[envs | e] out] rest IH]; intros Hall; simpl;
    [constructor | | constructor].
  assert (Hrest : Forall P (succeeded (fst (chain rest)))).
  { apply IH. intros r Hr. apply Hall. right. exact Hr. }
  destruct (fst (chain rest)) as [envs' | e]; simpl; [| constructor].
  apply Forall_app. split; [| exact Hrest].
  exact (Hall _ (or_introl eq_refl)).
Qed.

Lemma chain_raises (results : list (outcome (list Environment) * list string))
      (e : exn) :
  fst (chain results) = Raise e <->
  exists pre out post,
    results = pre ++ (Raise e, out) :: post /\
    Forall (fun r => exists envs, fst r = Ret envs) pre.
Proof.
  induction results as [| [[envs | e0] out] rest IH]; simpl.
  - split; [discriminate |]. intros (pre & o & post & E & _).
    destruct pre; discriminate.
  - split.
    + intros Hr. destruct (fst (chain rest)) as [envs' | e1] eqn:Hc;
        [discriminate |].
      inversion Hr; subst e1.
      destruct (proj1 IH eq_refl) as (pre & o & post & -> & Hpre).
      exists ((Ret envs, out) :: pre), o, post. split; [reflexivity |].
      constructor; [exists envs; reflexivity | exact Hpre].
    + intros (pre & o & post & E & Hpre).
      destruct pre as [| r pre]; [discriminate |].
      inversion E; subst r rest. inversion Hpre as [| ? ? _ Hpre']; subst.
      assert (Hc : fst (chain (pre ++ (Raise e, o) :: post)) = Raise e).
      { apply IH. exists pre, o, post. split; [reflexivity | exact Hpre']. }
      rewrite Hc. reflexivity.
  - split.
    + intros Hr. inversion Hr; subst e0. exists [], out, rest.
      split; [reflexivity | constructor].
    + intros (pre & o & post & E & Hpre). destruct pre as [| r pre].
      * inversion E; subst. reflexivity.
      * inversion E; subst r. inversion Hpre as [| ? ? [envs He] _]; subst.
        discriminate.
Qed.

Section Loops.

Context {B : Type}.
Variable body : B -> list Environment * list string
                -> outcome (list Environment) * list string.
Hypothesis body_appends :
  forall b envs out,
    body b (envs, out) =
      (match fst (body b ([], [])) with
       | Ret found => Ret (envs ++ found)
       | Raise e => Raise e
       end,
       out ++ snd (body b ([], []))).

(** A loop whose body only appends is the chain of what the body gives
    for each element on its own. *)
Lemma for_each_chain (bases : list B) :
  forall envs out,
    for_each body bases (envs, out) =
      (match fst (chain (map (fun b => body b ([], [])) bases)) with
       | Ret found => Ret (envs ++ found)
       | Raise e => Raise e
       end,
       out ++ snd (chain (map (fun b => body b ([], [])) bases))).
Proof.
  induction bases as [| b rest IH]; intros envs out; simpl.
  - rewrite !app_nil_r. reflexivity.
  - rewrite body_appends.
    destruct (body b ([], [])) as [[found | e] o]; simpl; [| reflexivity].
    rewrite IH.
    destruct (fst (chain (map (fun b0 => body b0 ([], [])) rest)));
      rewrite <- ?app_assoc; reflexivity.
Qed.

End Loops.

Section Scanners.

Context {S : Type} `{Host S}.

(** *** One base directory *)

Lemma scan_venv_entries_appends (s : S) (base : Path.t) (entries : list string) :
  forall envs,
    scan_venv_entries s base entries envs =
      (envs ++ fst (scan_venv_entries s base entries []),
       snd (scan_venv_entries s base entries [])).
Proof.
  induction entries as [| child rest IH]; intros envs; simpl.
  - rewrite app_nil_r. reflexivity.
  - destruct (and_then (is_dir s (base / child)%path)
                       (path_exists s (base / child / "pyvenv.cfg")%path))
      as [[|] | e]; simpl.
    + destruct (resolve s (base / child)%path) as [r | e]; simpl.
      * rewrite (IH (envs ++ _)), (IH [_]), <- app_assoc. reflexivity.
      * rewrite app_nil_r. reflexivity.
    + apply IH.
    + rewrite app_nil_r. reflexivity.
Qed.

Lemma conda_manual_entries_appends (s : S) (base : Path.t) (entries : list string) :
  forall envs,
    conda_manual_entries s base entries envs =
      (envs ++ fst (conda_manual_entries s base entries []),
       snd (conda_manual_entries s base entries [])).
Proof.
  induction entries as [| child rest IH]; intros envs; simpl.
  - rewrite app_nil_r. reflexivity.
  - destruct (and_then (is_dir s (base / child)%path) _) as [[|] | e]; simpl.
    + destruct (resolve s (base / child)%path) as [r | e]; simpl.
      * rewrite (IH (envs ++ _)), (IH [_]), <- app_assoc. reflexivity.
      * rewrite app_nil_r. reflexivity.
    + apply IH.
    + rewrite app_nil_r. reflexivity.
Qed.

Lemma scan_venv_base_appends (s : S) (base : Path.t) envs out :
  scan_venv_base s base (envs, out) =
    (match fst (scan_venv_base s base ([], [])) with
     | Ret found => Ret (envs ++ found)
     | Raise e => Raise e
     end,
     out ++ snd (scan_venv_base s base ([], []))).
Proof.
  unfold scan_venv_base.
  destruct (is_dir s base) as [[|] | e]; simpl; rewrite ?app_nil_r;
    try reflexivity.
  destruct (iterdir s base) as [entries | e]; simpl; rewrite ?app_nil_r;
    try reflexivity.
  rewrite (scan_venv_entries_appends s base entries envs).
  destruct (scan_venv_entries s base entries []) as [found [e |]]; simpl;
    rewrite ?app_nil_r; reflexivity.
Qed.

Lemma conda_manual_base_appends (s : S) (base : Path.t) envs out :
  conda_manual_base s base (envs, out) =
    (match fst (conda_manual_base s base ([], [])) with
     | Ret found => Ret (envs ++ found)
     | Raise e => Raise e
     end,
     out ++ snd (conda_manual_base s base ([], []))).
Proof.
  unfold conda_manual_base.
  destruct (is_dir s base) as [[|] | e]; simpl; rewrite ?app_nil_r;
    try reflexivity.
  destruct (iterdir s base) as [entries | e]; simpl; rewrite ?app_nil_r;
    try reflexivity.
  rewrite (conda_manual_entries_appends s base entries envs).
  destruct (conda_manual_entries s base entries []) as [found [e |]]; simpl;
    rewrite ?app_nil_r; reflexivity.
Qed.

(** The two directory scans as chains of their base directories. *)
Lemma scan_venv_dirs_flat (s : S) :
  scan_venv_dirs s =
    match path_home s with
    | Ret home => chain (map (venv_base_alone s) (venv_bases home))
    | Raise e => (Raise e, [])
    end.
Proof.
  unfold scan_venv_dirs. destruct (path_home s) as [home | e]; [| reflexivity].
  rewrite (for_each_chain (scan_venv_base s))
    by (intros b envs out; apply scan_venv_base_appends).
  fold (venv_base_alone s).
  destruct (chain (map (venv_base_alone s) (venv_bases home))) as [[found | e] out];
    reflexivity.
Qed.

Lemma conda_manual_scan_flat (s : S) :
  conda_manual_scan s =
    match path_home s with
    | Ret home =>
        (fst (chain (map (conda_base_alone s) (known_dirs home))),
         "Conda CLI not found; performing manual scan."
         :: snd (chain (map (conda_base_alone s) (known_dirs home))))
    | Raise e => (Raise e, ["Conda CLI not found; performing manual scan."])
    end.
Proof.
  unfold conda_manual_scan. destruct (path_home s) as [home | e]; [| reflexivity].
  rewrite (for_each_chain (conda_manual_base s))
    by (intros b envs out; apply conda_manual_base_appends).
  fold (conda_base_alone s).
  destruct (chain (map (conda_base_alone s) (known_dirs home))) as [[found | e] out];
    reflexivity.
Qed.

Lemma venv_base_alone_returns (s : S) (base : Path.t) (answer : bool) :
  is_dir s base = Ret answer ->
  exists envs, fst (venv_base_alone s base) = Ret envs.
Proof.
  intros Hd. unfold venv_base_alone, scan_venv_base. rewrite Hd.
  destruct answer; [| eexists; reflexivity].
  destruct (iterdir s base) as [entries | e]; [| eexists; reflexivity].
  destruct (scan_venv_entries s base entries []) as [found [e |]];
    eexists; reflexivity.
Qed.

Lemma conda_base_alone_returns (s : S) (base : Path.t) (answer : bool) :
  is_dir s base = Ret answer ->
  exists envs, fst (conda_base_alone s base) = Ret envs.
Proof.
  intros Hd. unfold conda_base_alone, conda_manual_base. rewrite Hd.
  destruct answer; [| eexists; reflexivity].
  destruct (iterdir s base) as [entries | e]; [| eexists; reflexivity].
  destruct (conda_manual_entries s base entries []) as [found [e |]];
    eexists; reflexivity.
Qed.

(** With every base examined the chain is a plain concatenation. *)
Lemma venv_bases_examined (s : S) (bases : list Path.t) :
  bases_examined s bases ->
  fst (chain (map (venv_base_alone s) bases)) =
    Ret (flat_map (fun base => succeeded (fst (venv_base_alone s base))) bases).
Proof.
  intros Hex. rewrite chain_returns.
  - cbn [fst]. rewrite flat_map_concat_map, map_map, <- flat_map_concat_map.
    reflexivity.
  - intros r Hr. apply in_map_iff in Hr. destruct Hr as (base & <- & Hb).
    destruct (Hex base Hb) as [answer Ha].
    exact (venv_base_alone_returns s base answer Ha).
Qed.

Lemma conda_bases_examined (s : S) (bases : list Path.t) :
  bases_examined s bases ->
  fst (chain (map (conda_base_alone s) bases)) =
    Ret (flat_map (fun base => succeeded (fst (conda_base_alone s base))) bases).
Proof.
  intros Hex. rewrite chain_returns.
  - cbn [fst]. rewrite flat_map_concat_map, map_map, <- flat_map_concat_map.
    reflexivity.
  - intros r Hr. apply in_map_iff in Hr. destruct Hr as (base & <- & Hb).
    destruct (Hex base Hb) as [answer Ha].
    exact (conda_base_alone_returns s base answer Ha).
Qed.

(** *** Where a record comes from *)

Lemma scan_venv_entries_made (s : S) (base : Path.t) (entries : list string) :
  forall rest envs,
    incl rest entries ->
    Forall (venv_made s base entries) envs ->
    Forall (venv_made s base entries) (fst (scan_venv_entries s base rest envs)).
Proof.
  induction rest as [| child rest IH]; intros envs Hi Henvs; simpl;
    [exact Henvs |].
  assert (Hrest : incl rest entries) by (intros x Hx; apply Hi; right; exact Hx).
  destruct (and_then (is_dir s (base / child)%path)
                     (path_exists s (base / child / "pyvenv.cfg")%path))
    as [[|] | e] eqn:Hc; simpl; [| apply IH; assumption | exact Henvs].
  apply and_then_true in Hc. destruct Hc as [Hd Hm].
  destruct (resolve s (base / child)%path) as [r | e] eqn:Hr; [| exact Henvs].
  apply IH; [exact Hrest |]. apply Forall_app. split; [exact Henvs |].
  constructor; [| constructor]. exists child, r. rewrite name_joinpath.
  repeat split; try assumption. apply Hi. left. reflexivity.
Qed.

Lemma conda_manual_entries_made (s : S) (base : Path.t) (entries : list string) :
  forall rest envs,
    incl rest entries ->
    Forall (conda_made s base entries) envs ->
    Forall (conda_made s base entries) (fst (conda_manual_entries s base rest envs)).
Proof.
  induction rest as [| child rest IH]; intros envs Hi Henvs; simpl;
    [exact Henvs |].
  assert (Hrest : incl rest entries) by (intros x Hx; apply Hi; right; exact Hx).
  destruct (and_then (is_dir s (base / child)%path) _)
    as [[|] | e] eqn:Hc; simpl; [| apply IH; assumption | exact Henvs].
  apply and_then_true in Hc. destruct Hc as [Hd Hm].
  destruct (resolve s (base / child)%path) as [r | e] eqn:Hr; [| exact Henvs].
  apply IH; [exact Hrest |]. apply Forall_app. split; [exact Henvs |].
  constructor; [| constructor]. exists child, r. rewrite name_joinpath.
  repeat split; try assumption. apply Hi. left. reflexivity.
Qed.

Lemma venv_base_alone_made (s : S) (base : Path.t) :
  Forall (fun env =>
            is_dir s base = Ret true /\
            exists entries,
              iterdir s base = Ret entries /\ venv_made s base entries env)
         (succeeded (fst (venv_base_alone s base))).
Proof.
  unfold venv_base_alone, scan_venv_base.
  destruct (is_dir s base) as [[|] | e] eqn:Hd; try constructor.
  destruct (iterdir s base) as [entries | e] eqn:Hl; [| constructor].
  pose proof (scan_venv_entries_made s base entries entries []
                (incl_refl _) (Forall_nil _)) as Hs.
  assert (Hgoal : Forall (fun env =>
              Ret true = Ret true /\
              exists entries0,
                Ret entries = Ret entries0 /\ venv_made s base entries0 env)
            (fst (scan_venv_entries s base entries []))).
  { eapply Forall_impl; [| exact Hs]. intros env Hm.
    split; [reflexivity |]. exists entries. split; [reflexivity | exact Hm]. }
  destruct (scan_venv_entries s base entries []) as [found [e |]]; exact Hgoal.
Qed.

Lemma conda_base_alone_made (s : S) (base : Path.t) :
  Forall (fun env =>
            is_dir s base = Ret true /\
            exists entries,
              iterdir s base = Ret entries /\ conda_made s base entries env)
         (succeeded (fst (conda_base_alone s base))).
Proof.
  unfold conda_base_alone, conda_manual_base.
  destruct (is_dir s base) as [[|] | e] eqn:Hd; try constructor.
  destruct (iterdir s base) as [entries | e] eqn:Hl; [| constructor].
  pose proof (conda_manual_entries_made s base entries entries []
                (incl_refl _) (Forall_nil _)) as Hs.
  assert (Hgoal : Forall (fun env =>
              Ret true = Ret true /\
              exists entries0,
                Ret entries = Ret entries0 /\ conda_made s base entries0 env)
            (fst (conda_manual_entries s base entries []))).
  { eapply Forall_impl; [| exact Hs]. intros env Hm.
    split; [reflexivity |]. exists entries. split; [reflexivity | exact Hm]. }
  destruct (conda_manual_entries s base entries []) as [found [e |]]; exact Hgoal.
Qed.

(** Every record of a directory scan was made in one of its bases. *)
Lemma scan_venv_dirs_made (s : S) (home : Path.t) :
  path_home s = Ret home ->
  Forall (fun env =>
            exists base entries,
              In base (venv_bases home) /\ is_dir s base = Ret true /\
              iterdir s base = Ret entries /\ venv_made s base entries env)
         (succeeded (fst (scan_venv_dirs s))).
Proof.
  intros Hh. rewrite scan_venv_dirs_flat, Hh. apply chain_Forall.
  intros r Hr. apply in_map_iff in Hr. destruct Hr as (base & <- & Hb).
  eapply Forall_impl; [| apply venv_base_alone_made].
  intros env (Hd & entries & Hl & Hm). exists base, entries.
  repeat split; assumption.
Qed.

Lemma conda_manual_scan_made (s : S) (home : Path.t) :
  path_home s = Ret home ->
  Forall (fun env =>
            exists base entries,
              In base (known_dirs home) /\ is_dir s base = Ret true /\
              iterdir s base = Ret entries /\ conda_made s base entries env)
         (succeeded (fst (conda_manual_scan s))).
Proof.
  intros Hh. rewrite conda_manual_scan_flat, Hh. cbn [fst]. apply chain_Forall.
  intros r Hr. apply in_map_iff in Hr. destruct Hr as (base & <- & Hb).
  eapply Forall_impl; [| apply conda_base_alone_made].
  intros env (Hd & entries & Hl & Hm). exists base, entries.
  repeat split; assumption.
Qed.

(** *** The listing of the Conda command line *)

Lemma conda_cli_entries_prefix (items : list json) :
  forall envs,
    fst (conda_cli_entries items envs) =
      envs ++ map listed_record (listed_prefix items)
    /\ (snd (conda_cli_entries items envs) = None <-> all_strings items = true)
    /\ (forall exc, snd (conda_cli_entries items envs) = Some exc ->
                    exn_cls exc = TypeError).
Proof.
  induction items as [| item rest IH]; intros envs; simpl.
  - rewrite app_nil_r. repeat split; try reflexivity. discriminate.
  - destruct item; simpl;
      try (rewrite app_nil_r; repeat split; try discriminate;
           intros exc Hx; inversion Hx; reflexivity).
    destruct (IH (envs ++ [mkEnvironment (Path.name (Path.of_str s)) "Conda" s]))
      as (Hf & Hs & Hc).
    rewrite Hf, <- app_assoc. repeat split; try apply Hs. exact Hc.
Qed.

(** With a [conda] on the search path the scan is a function of what
    lines 274-275 get from the command line. *)
Lemma scan_conda_envs_listed (s : S) (conda_path : string) :
  which s "conda" = Some conda_path ->
  match listed_items s conda_path with
  | Raise exc =>
      scan_conda_envs s =
        (Ret [], [("Error scanning Conda via CLI: " ++ exn_str exc)%string])
  | Ret items =>
      exists out,
        scan_conda_envs s = (Ret (map listed_record (listed_prefix items)), out) /\
        length out <= 1 /\
        (out = [] <-> all_strings items = true)
  end.
Proof.
  intros Hw. unfold scan_conda_envs, conda_cli_scan, listed_items. rewrite Hw.
  destruct (data <- conda_env_list s conda_path;; v <- get_envs data;; iterate v)
    as [items | exc]; [| reflexivity].
  destruct (conda_cli_entries_prefix items []) as (Hf & Hs & _).
  destruct (conda_cli_entries items []) as [envs [exc |]]; simpl in *; subst envs.
  - eexists. split; [reflexivity |]. split; [auto |].
    split; [discriminate |]. intros Ha. apply Hs in Ha. discriminate.
  - eexists. split; [reflexivity |]. split; [auto |].
    split; [intros _; apply Hs; reflexivity | reflexivity].
Qed.

(** C6, amended. The directory scan is what [scan_conda_envs] does when
    no [conda] is found on the search path, and only then.  When one is
    found, the scan is made of the answer of the command line alone: if
    running it, reading its output or getting the list of paths out of it
    fails, the error is printed and the empty list returned; else a
    record is made of each listed element up to the first that is no
    string, where, if there is one, an error is printed and the listing
    ends. *)
Theorem scan_conda_envs_fallback (s : S) :
  (which s "conda" = None -> scan_conda_envs s = conda_manual_scan s)
  /\ (forall conda_path,
        which s "conda" = Some conda_path ->
        (forall exc,
            listed_items s conda_path = Raise exc ->
            scan_conda_envs s =
              (Ret [], [("Error scanning Conda via CLI: " ++ exn_str exc)%string]))
        /\ (forall items,
              listed_items s conda_path = Ret items ->
              exists out,
                scan_conda_envs s =
                  (Ret (map listed_record (listed_prefix items)), out) /\
                length out <= 1 /\
                (out = [] <-> all_strings items = true))).
Proof.
  split.
  - intros Hw. unfold scan_conda_envs. rewrite Hw. reflexivity.
  - intros conda_path Hw. pose proof (scan_conda_envs_listed s conda_path Hw) as Hl.
    split.
    + intros exc He. rewrite He in Hl. exact Hl.
    + intros items Hi. rewrite Hi in Hl. exact Hl.
Qed.

End Scanners.

Lemma scan_conda_envs_fallback_witness :
  which Samples.no_conda "conda" = None /\
  scan_conda_envs Samples.no_conda = conda_manual_scan Samples.no_conda /\
  fst (scan_conda_envs Samples.no_conda) =
    Ret [mkEnvironment "foo" "Conda" "/home/u/miniconda3/envs/foo"] /\
  which Samples.garbled_conda "conda" = Some "/usr/bin/conda" /\
  scan_conda_envs Samples.garbled_conda =
    (Ret [], ["Error scanning Conda via CLI: Expecting value: line 1 column 1 (char 0)"]) /\
  which Samples.stale_conda "conda" = Some "/usr/bin/conda" /\
  fst (scan_conda_envs Samples.stale_conda) =
    Ret [ mkEnvironment "foo" "Conda" "/home/u/miniconda3/envs/foo";
          mkEnvironment "gone" "Conda" "/home/u/miniconda3/envs/gone" ].
Proof.
  destruct (scan_conda_envs_fallback Samples.no_conda) as [Hnone _].
  destruct (scan_conda_envs_fallback Samples.garbled_conda) as [_ Hgarbled].
  destruct (scan_conda_envs_fallback Samples.stale_conda) as [_ Hstale].
  split; [reflexivity |]. split; [apply Hnone; reflexivity |].
  split; [reflexivity |]. split; [reflexivity |]. split.
  - destruct (Hgarbled "/usr/bin/conda" eq_refl) as [Hraise _].
    apply (Hraise (mkExn ValueError "Expecting value: line 1 column 1 (char 0)")).
    reflexivity.
  - split; [reflexivity |].
    destruct (Hstale "/usr/bin/conda" eq_refl) as [_ Hret].
    destruct (Hret [JStr "/home/u/miniconda3/envs/foo";
                    JStr "/home/u/miniconda3/envs/gone"] eq_refl)
      as (out & Hs & _).
    rewrite Hs. reflexivity.
Defined.

(** C6 as stated fails when [conda] is installed and listing exits with a
    non-zero status: the scanner returns the empty list, although
    [~/miniconda3/envs/foo] is there and the directory scan would report
    it. *)
Lemma scan_conda_envs_no_fallback :
  which Samples.broken_conda "conda" = Some "/usr/bin/conda" /\
  conda_env_list Samples.broken_conda "/usr/bin/conda" =
    Raise (mkExn CalledProcessError "Command returned non-zero exit status 1.") /\
  scan_conda_envs Samples.broken_conda =
    (Ret [], ["Error scanning Conda via CLI: Command returned non-zero exit status 1."]) /\
  fst (conda_manual_scan Samples.broken_conda) =
    Ret [mkEnvironment "foo" "Conda" "/home/u/miniconda3/envs/foo"] /\
  fst (scan_conda_envs Samples.broken_conda) <>
    fst (conda_manual_scan Samples.broken_conda).
Proof.
  repeat split; try reflexivity. vm_compute. discriminate.
Defined.

Section LawfulHost.

Context {S : Type} `{HostLaws S}.

(** C9, amended. With the working directory [cwd]: if [cwd/.venv] is a
    directory and an entry [pyvenv.cfg] exists in it, a file or not,
    [scan_current_dir_venv] returns exactly one environment, of type
    ["venv (local)"], named by the last component of [cwd] and located at
    the resolved [cwd/.venv]; if [cwd/.venv] is no directory, or is one
    and has no entry [pyvenv.cfg], it returns the empty list; and if one
    of the two tests of line 304 raises, the scanner, which has no [try],
    raises that exception. *)
Theorem scan_current_dir_venv_spec (s : S) (cwd : Path.t) :
  path_cwd s = Ret cwd ->
  let potential := (cwd / ".venv")%path in
  (is_dir s potential = Ret false ->
   fst (scan_current_dir_venv s) = Ret [])
  /\ (is_dir s potential = Ret true ->
      path_exists s (potential / "pyvenv.cfg")%path = Ret false ->
      fst (scan_current_dir_venv s) = Ret [])
  /\ (is_dir s potential = Ret true ->
      path_exists s (potential / "pyvenv.cfg")%path = Ret true ->
      exists r,
        resolve s potential = Ret r /\
        fst (scan_current_dir_venv s) =
          Ret [mkEnvironment (Path.name cwd) "venv (local)" (Path.str r)])
  /\ (forall e,
        is_dir s potential = Raise e ->
        fst (scan_current_dir_venv s) = Raise e)
  /\ (forall e,
        is_dir s potential = Ret true ->
        path_exists s (potential / "pyvenv.cfg")%path = Raise e ->
        fst (scan_current_dir_venv s) = Raise e).
Proof.
  intros Hcwd potential. unfold scan_current_dir_venv. cbn [fst].
  rewrite Hcwd. unfold bind, and_then. fold potential.
  split; [| split; [| split; [| split]]].
  - intros Hd. rewrite Hd. reflexivity.
  - intros Hd Hm. rewrite Hd. unfold bind. rewrite Hm. reflexivity.
  - intros Hd Hm. rewrite Hd. unfold bind. rewrite Hm.
    destruct (resolve_is_dir s potential Hd) as (r & Hr & _).
    exists r. split; [exact Hr |]. rewrite Hr. reflexivity.
  - intros e Hd. rewrite Hd. reflexivity.
  - intros e Hd Hm. rewrite Hd. unfold bind. rewrite Hm. reflexivity.
Qed.

Lemma scan_venv_entries_finds (s : S) (base : Path.t) (child : string)
      (entries : list string) :
  venv_entries_examined s base entries ->
  In child entries ->
  is_dir s (base / child)%path = Ret true ->
  path_exists s (base / child / "pyvenv.cfg")%path = Ret true ->
  exists r,
    resolve s (base / child)%path = Ret r /\
    In (mkEnvironment child (etype_of base) (Path.str r))
       (fst (scan_venv_entries s base entries [])).
Proof.
  intros Hex Hin Hd Hm.
  destruct (resolve_is_dir s _ Hd) as (r & Hr & _).
  exists r. split; [exact Hr |].
  induction entries as [| c rest IH]; [destruct Hin |].
  assert (Hrest : venv_entries_examined s base rest)
    by (intros x Hx; apply Hex; right; exact Hx).
  simpl. destruct (string_dec c child) as [-> | Hne].
  - rewrite (proj2 (and_then_true _ _) (conj Hd Hm)), Hr.
    rewrite scan_venv_entries_appends. simpl. left.
    rewrite name_joinpath. reflexivity.
  - destruct Hin as [E | Hin]; [contradiction |]. specialize (IH Hrest Hin).
    destruct (Hex c (or_introl eq_refl)) as [[|] Hc]; rewrite Hc; [| exact IH].
    apply and_then_true in Hc. destruct Hc as [Hdc _].
    destruct (resolve_is_dir s _ Hdc) as (q & Hq & _). rewrite Hq.
    rewrite scan_venv_entries_appends. simpl. right. exact IH.
Qed.

Lemma conda_manual_entries_finds (s : S) (base : Path.t) (child : string)
      (entries : list string) :
  conda_entries_examined s base entries ->
  In child entries ->
  is_dir s (base / child)%path = Ret true ->
  or_else (is_dir s (base / child / "conda-meta")%path)
          (path_exists s (base / child / "bin" / "python")%path) = Ret true ->
  exists r,
    resolve s (base / child)%path = Ret r /\
    In (mkEnvironment child "Conda" (Path.str r))
       (fst (conda_manual_entries s base entries [])).
Proof.
  intros Hex Hin Hd Hm.
  destruct (resolve_is_dir s _ Hd) as (r & Hr & _).
  exists r. split; [exact Hr |].
  induction entries as [| c rest IH]; [destruct Hin |].
  assert (Hrest : conda_entries_examined s base rest)
    by (intros x Hx; apply Hex; right; exact Hx).
  simpl. destruct (string_dec c child) as [-> | Hne].
  - rewrite (proj2 (and_then_true _ _) (conj Hd Hm)), Hr.
    rewrite conda_manual_entries_appends. simpl. left.
    rewrite name_joinpath. reflexivity.
  - destruct Hin as [E | Hin]; [contradiction |]. specialize (IH Hrest Hin).
    destruct (Hex c (or_introl eq_refl)) as [[|] Hc]; rewrite Hc; [| exact IH].
    apply and_then_true in Hc. destruct Hc as [Hdc _].
    destruct (resolve_is_dir s _ Hdc) as (q & Hq & _). rewrite Hq.
    rewrite conda_manual_entries_appends. simpl. right. exact IH.
Qed.

(** A marked entry of a base directory is in the result of the scan, when
    every test returned. *)
Lemma scan_venv_dirs_contains (s : S) (home base : Path.t) (child : string)
      (entries : list string) :
  path_home s = Ret home ->
  bases_examined s (venv_bases home) ->
  In base (venv_bases home) ->
  is_dir s base = Ret true ->
  iterdir s base = Ret entries ->
  venv_entries_examined s base entries ->
  In child entries ->
  is_dir s (base / child)%path = Ret true ->
  path_exists s (base / child / "pyvenv.cfg")%path = Ret true ->
  exists r envs,
    resolve s (base / child)%path = Ret r /\
    fst (scan_venv_dirs s) = Ret envs /\
    In (mkEnvironment child (etype_of base) (Path.str r)) envs.
Proof.
  intros Hh Hbs Hb Hd Hl Hex Hin Hdc Hm.
  destruct (scan_venv_entries_finds s base child entries Hex Hin Hdc Hm)
    as (r & Hr & Hfound).
  exists r. eexists. split; [exact Hr |].
  rewrite scan_venv_dirs_flat, Hh. split; [apply venv_bases_examined, Hbs |].
  apply in_flat_map. exists base. split; [exact Hb |].
  unfold venv_base_alone, scan_venv_base. rewrite Hd, Hl.
  destruct (scan_venv_entries s base entries []) as [found [e |]]; exact Hfound.
Qed.

Lemma conda_manual_scan_contains (s : S) (home base : Path.t) (child : string)
      (entries : list string) :
  path_home s = Ret home ->
  bases_examined s (known_dirs home) ->
  In base (known_dirs home) ->
  is_dir s base = Ret true ->
  iterdir s base = Ret entries ->
  conda_entries_examined s base entries ->
  In child entries ->
  is_dir s (base / child)%path = Ret true ->
  or_else (is_dir s (base / child / "conda-meta")%path)
          (path_exists s (base / child / "bin" / "python")%path) = Ret true ->
  exists r envs,
    resolve s (base / child)%path = Ret r /\
    fst (conda_manual_scan s) = Ret envs /\
    In (mkEnvironment child "Conda" (Path.str r)) envs.
Proof.
  intros Hh Hbs Hb Hd Hl Hex Hin Hdc Hm.
  destruct (conda_manual_entries_finds s base child entries Hex Hin Hdc Hm)
    as (r & Hr & Hfound).
  exists r. eexists. split; [exact Hr |].
  rewrite conda_manual_scan_flat, Hh. cbn [fst].
  split; [apply conda_bases_examined, Hbs |].
  apply in_flat_map. exists base. split; [exact Hb |].
  unfold conda_base_alone, conda_manual_base. rewrite Hd, Hl.
  destruct (conda_manual_entries s base entries []) as [found [e |]]; exact Hfound.
Qed.

(** C7, amended. When the tests of lines 249 and 252 return for the three
    base directories and for the entries of [~/.virtualenvs], and that
    directory can be listed: an entry [child] of it that is a directory
    and holds [pyvenv.cfg] is returned by [scan_venv_dirs] as an
    environment named [child], located at the resolved path of that
    directory, whose type is read off the text of the base directory's
    path, home directory included: ["Poetry"] if it contains [pypoetry],
    else ["Pipenv"] if it contains [local], else ["venv"]. *)
Theorem scan_venv_dirs_finds (s : S) (home : Path.t) (child : string)
        (entries : list string) :
  path_home s = Ret home ->
  let base := (home / ".virtualenvs")%path in
  bases_examined s (venv_bases home) ->
  is_dir s base = Ret true ->
  iterdir s base = Ret entries ->
  venv_entries_examined s base entries ->
  In child entries ->
  is_dir s (base / child)%path = Ret true ->
  path_exists s (base / child / "pyvenv.cfg")%path = Ret true ->
  exists r envs,
    resolve s (base / child)%path = Ret r /\
    fst (scan_venv_dirs s) = Ret envs /\
    In (mkEnvironment child
          (if contains "pypoetry" (Path.str base) then "Poetry"
           else if contains "local" (Path.str base) then "Pipenv"
           else "venv")
          (Path.str r)) envs.
Proof.
  intros Hh base Hbs Hd Hl Hex Hin Hdc Hm.
  apply (scan_venv_dirs_contains s home base child entries); try assumption.
  left. reflexivity.
Qed.

Lemma venv_made_recorded (s : S) (base : Path.t) (entries : list string)
      (env : Environment) :
  venv_made s base entries env ->
  recorded_from s (base / name env)%path env.
Proof.
  intros (child & r & _ & Hd & _ & Hr & ->). simpl.
  destruct (resolve_is_dir s _ Hd) as (q & Hq & Hdq).
  rewrite Hr in Hq. inversion Hq; subst q.
  split; [exact Hd |]. exists r. repeat split; assumption.
Qed.

Lemma conda_made_recorded (s : S) (base : Path.t) (entries : list string)
      (env : Environment) :
  conda_made s base entries env ->
  recorded_from s (base / name env)%path env.
Proof.
  intros (child & r & _ & Hd & _ & Hr & ->). simpl.
  destruct (resolve_is_dir s _ Hd) as (q & Hq & Hdq).
  rewrite Hr in Hq. inversion Hq; subst q.
  split; [exact Hd |]. exists r. repeat split; assumption.
Qed.

Lemma scan_venv_dirs_recorded (s : S) :
  Forall (fun env =>
            exists home base,
              path_home s = Ret home /\ In base (venv_bases home) /\
              recorded_from s (base / name env)%path env)
         (succeeded (fst (scan_venv_dirs s))).
Proof.
  destruct (path_home s) as [home | e] eqn:Hh.
  - eapply Forall_impl; [| apply (scan_venv_dirs_made s home Hh)].
    intros env (base & entries & Hb & _ & _ & Hm). exists home, base.
    split; [reflexivity |]. split; [exact Hb |].
    exact (venv_made_recorded s base entries env Hm).
  - rewrite scan_venv_dirs_flat, Hh. constructor.
Qed.

Lemma conda_manual_scan_recorded (s : S) :
  Forall (fun env =>
            exists home base,
              path_home s = Ret home /\ In base (known_dirs home) /\
              recorded_from s (base / name env)%path env)
         (succeeded (fst (conda_manual_scan s))).
Proof.
  destruct (path_home s) as [home | e] eqn:Hh.
  - eapply Forall_impl; [| apply (conda_manual_scan_made s home Hh)].
    intros env (base & entries & Hb & _ & _ & Hm). exists home, base.
    split; [reflexivity |]. split; [exact Hb |].
    exact (conda_made_recorded s base entries env Hm).
  - rewrite conda_manual_scan_flat, Hh. constructor.
Qed.

Lemma scan_current_dir_venv_recorded (s : S) :
  Forall (fun env =>
            exists cwd,
              path_cwd s = Ret cwd /\ recorded_from s (cwd / ".venv")%path env)
         (succeeded (fst (scan_current_dir_venv s))).
Proof.
  unfold scan_current_dir_venv. cbn [fst]. unfold bind, and_then.
  destruct (path_cwd s) as [cwd | e]; [| constructor].
  destruct (is_dir s (cwd / ".venv")%path) as [[|] | e] eqn:Hd;
    try constructor; unfold bind.
  destruct (path_exists s (cwd / ".venv" / "pyvenv.cfg")%path) as [[|] | e];
    try constructor.
  destruct (resolve_is_dir s _ Hd) as (q & Hq & Hdq). rewrite Hq.
  constructor; [| constructor]. exists cwd. split; [reflexivity |].
  split; [exact Hd |]. exists q. repeat split; assumption.
Qed.

(** C5, amended. A record of [scan_venv_dirs], of [scan_current_dir_venv]
    or of the directory scan of [scan_conda_envs] is made of a candidate
    that passed [is_dir] just before, and carries the text of what that
    candidate resolves to, which is a directory.  The records made from
    the listing of the Conda command line are a function of that listing
    alone: the listed strings as they are, with no look at the file
    system.  [delete_environment] does not look either: an environment
    that is not the running one is handed to [rmtree], or for the type
    ["Conda"] to the removal command unless it is named [base], whether
    its path exists or not, and the answer is what that call did. *)
Theorem recorded_paths (s : S) :
  (Forall (fun env =>
             exists home base,
               path_home s = Ret home /\ In base (venv_bases home) /\
               recorded_from s (base / name env)%path env)
          (succeeded (fst (scan_venv_dirs s)))
   /\ Forall (fun env =>
                exists cwd,
                  path_cwd s = Ret cwd /\
                  recorded_from s (cwd / ".venv")%path env)
             (succeeded (fst (scan_current_dir_venv s)))
   /\ Forall (fun env =>
                exists home base,
                  path_home s = Ret home /\ In base (known_dirs home) /\
                  recorded_from s (base / name env)%path env)
             (succeeded (fst (conda_manual_scan s))))
  /\ (forall conda_path,
        which s "conda" = Some conda_path ->
        fst (scan_conda_envs s) =
          Ret match listed_items s conda_path with
              | Ret items => map listed_record (listed_prefix items)
              | Raise _ => []
              end)
  /\ (forall env,
        is_current_env s (path env) = Ret false ->
        delete_environment s env =
          if String.eqb (env_type env) "Conda" then
            if String.eqb (lower (name env)) "base" then
              (Ret (false, "Cannot delete the Conda base environment."), s)
            else
              match conda_env_remove s (path env) with
              | (Ret _, s') =>
                  (Ret (true, "Conda environment removed successfully."), s')
              | (Raise exc, s') =>
                  (Ret (false,
                        ("Error deleting Conda environment: " ++ exn_str exc)%string),
                   s')
              end
          else
            match rmtree s (path env) with
            | (Ret _, s') => (Ret (true, "Environment removed successfully."), s')
            | (Raise exc, s') =>
                (Ret (false, ("Error deleting environment: " ++ exn_str exc)%string),
                 s')
            end).
Proof.
  split; [| split].
  - split; [apply scan_venv_dirs_recorded |].
    split; [apply scan_current_dir_venv_recorded | apply conda_manual_scan_recorded].
  - intros conda_path Hw. pose proof (scan_conda_envs_listed s conda_path Hw) as Hl.
    destruct (listed_items s conda_path) as [items | exc].
    + destruct Hl as (out & -> & _). reflexivity.
    + rewrite Hl. reflexivity.
  - intros env Hc. rewrite (delete_environment_not_current _ _ Hc). reflexivity.
Qed.

End LawfulHost.

Lemma scan_current_dir_venv_spec_witness :
  path_cwd Samples.project = Ret (Path.of_str "/tmp/project") /\
  fst (scan_current_dir_venv Samples.project) =
    Ret [mkEnvironment "project" "venv (local)" "/tmp/project/.venv"] /\
  path_cwd Samples.system_python = Ret (Path.of_str "/home/u") /\
  fst (scan_current_dir_venv Samples.system_python) = Ret [] /\
  path_cwd Cases.locked_venv = Ret (Path.of_str "/tmp/project") /\
  fst (scan_current_dir_venv Cases.locked_venv) = Raise Locked.denied.
Proof.
  assert (Hp : path_cwd Samples.project = Ret (Path.of_str "/tmp/project"))
    by reflexivity.
  assert (Hu : path_cwd Samples.system_python = Ret (Path.of_str "/home/u"))
    by reflexivity.
  split; [exact Hp |]. split.
  - destruct (scan_current_dir_venv_spec Samples.project _ Hp)
      as (_ & _ & Hfound & _).
    destruct (Hfound eq_refl eq_refl) as (r & Hr & Hs).
    vm_compute in Hr. inversion Hr; subst r. exact Hs.
  - split; [exact Hu |]. split.
    + destruct (scan_current_dir_venv_spec Samples.system_python _ Hu)
        as (Hnone & _).
      exact (Hnone eq_refl).
    + assert (Hl : path_cwd Cases.locked_venv = Ret (Path.of_str "/tmp/project"))
        by reflexivity.
      split; [exact Hl |].
      destruct (scan_current_dir_venv_spec Cases.locked_venv _ Hl)
        as (_ & _ & _ & _ & Hraise).
      apply (Hraise Locked.denied); reflexivity.
Defined.

(** C9 as stated fails where [.venv] holds no file [pyvenv.cfg] but a
    directory of that name: one environment is returned.  It also fails
    where [.venv] holds the file and cannot be searched: the test of
    line 304 raises, and the scanner, which has no [try], with it. *)
Lemma scan_current_dir_venv_marker_directory :
  existsb (Machine.same ["tmp"; "project"; ".venv"; "pyvenv.cfg"])
          (Machine.files Cases.marker_is_directory) = false /\
  is_dir Cases.marker_is_directory (Path.of_str "/tmp/project/.venv/pyvenv.cfg")
    = Ret true /\
  fst (scan_current_dir_venv Cases.marker_is_directory) =
    Ret [mkEnvironment "project" "venv (local)" "/tmp/project/.venv"] /\
  existsb (Machine.same ["tmp"; "project"; ".venv"; "pyvenv.cfg"])
          (Machine.files (Locked.machine Cases.locked_venv)) = true /\
  is_dir Cases.locked_venv (Path.of_str "/tmp/project/.venv") = Ret true /\
  fst (scan_current_dir_venv Cases.locked_venv) = Raise Locked.denied.
Proof.
  repeat split; reflexivity.
Defined.

Lemma scan_venv_dirs_finds_witness :
  let home := Path.of_str "/home/u" in
  let base := (home / ".virtualenvs")%path in
  path_home Samples.system_python = Ret home /\
  is_dir Samples.system_python (base / "myenv")%path = Ret true /\
  path_exists Samples.system_python (base / "myenv" / "pyvenv.cfg")%path = Ret true /\
  exists envs,
    fst (scan_venv_dirs Samples.system_python) = Ret envs /\
    In (mkEnvironment "myenv" "venv" "/home/u/.virtualenvs/myenv") envs.
Proof.
  intros home base. split; [reflexivity |]. split; [reflexivity |].
  split; [reflexivity |].
  destruct (scan_venv_dirs_finds Samples.system_python home "myenv"
              [".venv"; "myenv"; "Base"; "app"; "app2"])
    as (r & envs & Hr & Hs & Hin);
    try reflexivity.
  - apply Machine_bases_examined.
  - apply Machine_venv_entries_examined.
  - right. left. reflexivity.
  - exists envs. split; [exact Hs |].
    vm_compute in Hr. inversion Hr; subst r. exact Hin.
Defined.

(** C7 as stated fails for a home directory whose path contains [local]:
    [/home/localuser/.virtualenvs/myenv] is reported with the type
    ["Pipenv"], and no record of type ["venv"] is returned.  It fails as
    well where [~/.cache] cannot be searched: the test of line 249 raises
    for the second base directory, outside the [try], so the scanner
    raises and what it found in [~/.virtualenvs] is lost. *)
Lemma scan_venv_dirs_local_home :
  path_home Samples.local_home = Ret (Path.of_str "/home/localuser") /\
  is_dir Samples.local_home
         (Path.of_str "/home/localuser/.virtualenvs/myenv") = Ret true /\
  path_exists Samples.local_home
         (Path.of_str "/home/localuser/.virtualenvs/myenv/pyvenv.cfg") = Ret true /\
  scan_venv_dirs Samples.local_home =
    (Ret [mkEnvironment "myenv" "Pipenv" "/home/localuser/.virtualenvs/myenv"], []) /\
  ~ In (mkEnvironment "myenv" "venv" "/home/localuser/.virtualenvs/myenv")
       (succeeded (fst (scan_venv_dirs Samples.local_home))) /\
  path_home Cases.locked_cache = Ret (Path.of_str "/home/u") /\
  is_dir Cases.locked_cache (Path.of_str "/home/u/.virtualenvs/myenv") = Ret true /\
  path_exists Cases.locked_cache
    (Path.of_str "/home/u/.virtualenvs/myenv/pyvenv.cfg") = Ret true /\
  scan_venv_dirs Cases.locked_cache = (Raise Locked.denied, []).
Proof.
  split; [reflexivity |]. split; [reflexivity |]. split; [reflexivity |].
  split; [reflexivity |].
  split; [vm_compute; intros [E | []]; discriminate |].
  repeat split; reflexivity.
Defined.

Lemma recorded_paths_witness :
  let myenv := mkEnvironment "myenv" "venv" "/home/u/.virtualenvs/myenv" in
  let gone := mkEnvironment "gone" "venv" "/home/u/.virtualenvs/gone" in
  recorded_from Samples.system_python
    (Path.of_str "/home/u/.virtualenvs/myenv") myenv /\
  fst (scan_conda_envs Samples.stale_conda) =
    Ret [ mkEnvironment "foo" "Conda" "/home/u/miniconda3/envs/foo";
          mkEnvironment "gone" "Conda" "/home/u/miniconda3/envs/gone" ] /\
  path_exists Samples.system_python (Path.of_str (path gone)) = Ret false /\
  delete_environment Samples.system_python gone =
    (Ret (false, "Error deleting environment: No such file or directory"),
     Machine.log Samples.system_python "rmtree /home/u/.virtualenvs/gone").
Proof.
  intros myenv gone.
  destruct (recorded_paths Samples.system_python) as [[Hv _] _].
  destruct (recorded_paths Samples.stale_conda) as [_ [Hcli _]].
  destruct (recorded_paths Samples.system_python) as [_ [_ Hdel]].
  split; [| split; [| split]].
  - rewrite Forall_forall in Hv.
    destruct (Hv myenv) as (home & base & Hh & Hb & Hrec).
    + vm_compute. right. left. reflexivity.
    + vm_compute in Hh. inversion Hh; subst home.
      destruct Hb as [<- | [<- | [<- | []]]]; try exact Hrec;
        destruct Hrec as [Hd _]; vm_compute in Hd; discriminate.
  - rewrite (Hcli "/usr/bin/conda" eq_refl). reflexivity.
  - reflexivity.
  - rewrite (Hdel gone eq_refl). reflexivity.
Defined.

(** C5 as stated fails on both counts when the Conda command line still
    lists an environment whose directory is gone: the record is made for a
    path that does not exist, and deleting it goes straight to the removal
    command, as the journal shows. *)
Lemma recorded_path_missing :
  let gone := mkEnvironment "gone" "Conda" "/home/u/miniconda3/envs/gone" in
  In gone (succeeded (fst (scan_conda_envs Samples.stale_conda))) /\
  is_dir Samples.stale_conda (Path.of_str (path gone)) = Ret false /\
  path_exists Samples.stale_conda (Path.of_str (path gone)) = Ret false /\
  delete_environment Samples.stale_conda gone =
    (Ret (false, "Error deleting Conda environment: No such file or directory"),
     Machine.log Samples.stale_conda
       "conda env remove --prefix /home/u/miniconda3/envs/gone").
Proof.
  intros gone.
  split; [vm_compute; right; left; reflexivity |].
  repeat split; reflexivity.
Defined.

(* ------------------------------------------------------------------ *)
(** ** More on the guard and on deletion *)
(* ------------------------------------------------------------------ *)

Lemma prefix_nil (v : string) : String.prefix "" v = true.
Proof. destruct v; reflexivity. Qed.

Lemma prefix_append (x v : string) : String.prefix x (x ++ v) = true.
Proof.
  induction x as [| c x IH]; simpl; [apply prefix_nil |].
  destruct (ascii_dec c c); [exact IH | contradiction].
Qed.

Lemma prefix_append_same (x u v : string) :
  String.prefix (x ++ u) (x ++ v) = String.prefix u v.
Proof.
  induction x as [| c x IH]; simpl; [reflexivity |].
  destruct (ascii_dec c c); [exact IH | contradiction].
Qed.

Lemma prefix_same (x : string) : String.prefix x x = true.
Proof.
  induction x as [| c x IH]; simpl; [reflexivity |].
  destruct (ascii_dec c c); [exact IH | contradiction].
Qed.

(** Component by component below gives text prefix. *)
Lemma below_concat (d : list string) :
  forall a, Path.below d a = true ->
            String.prefix (String.concat "/" d) (String.concat "/" a) = true.
Proof.
  induction d as [| x d IH]; intros a Hb; [apply prefix_nil |].
  destruct a as [| y a]; [discriminate |].
  simpl in Hb. apply andb_prop in Hb. destruct Hb as [Hxy Hb].
  apply String.eqb_eq in Hxy. subst y.
  destruct d as [| z d].
  - destruct a as [| w a]; simpl; [apply prefix_same | apply prefix_append].
  - destruct a as [| w a]; [discriminate |].
    change (String.concat "/" (x :: z :: d))
      with (x ++ "/" ++ String.concat "/" (z :: d))%string.
    change (String.concat "/" (x :: w :: a))
      with (x ++ "/" ++ String.concat "/" (w :: a))%string.
    rewrite !prefix_append_same. apply IH, Hb.
Qed.

Section Guard.

Context {S : Type} `{Host S}.

(** X1. An environment whose resolved path holds the resolved interpreter,
    component by component, is recognised as the running one and is never
    deleted: the answer is the in-use refusal and the machine is left as
    it was. *)
Theorem delete_environment_protects_ancestor (s : S) (env : Environment)
        (exe p : Path.t) :
  resolve s (Path.of_str (sys_executable s)) = Ret exe ->
  resolve s (Path.of_str (path env)) = Ret p ->
  Path.anchored exe = true ->
  Path.anchored p = true ->
  Path.below (Path.parts p) (Path.parts exe) = true ->
  is_current_env s (path env) = Ret true /\
  delete_environment s env =
    (Ret (false, "Cannot delete the environment currently in use."), s).
Proof.
  intros He Hp Ha Hb Hbelow.
  assert (Hc : is_current_env s (path env) = Ret true).
  { unfold is_current_env. rewrite He. simpl. rewrite Hp. simpl.
    unfold startswith, Path.str. rewrite Ha, Hb.
    rewrite (prefix_append_same "/"), (below_concat _ _ Hbelow). reflexivity. }
  split; [exact Hc |]. unfold delete_environment. rewrite Hc. reflexivity.
Qed.

(** X2. When resolving the interpreter's path, or after it the given
    path, raises an [OSError] or a [RuntimeError], [is_current_env]
    answers false instead of raising. *)
Theorem is_current_env_contains (s : S) (env_path : string) (e : exn) :
  OSError_or_RuntimeError (exn_cls e) = true ->
  resolve s (Path.of_str (sys_executable s)) = Raise e
  \/ ((exists exe, resolve s (Path.of_str (sys_executable s)) = Ret exe)
      /\ resolve s (Path.of_str env_path) = Raise e) ->
  is_current_env s env_path = Ret false.
Proof. exact (is_current_env_resolution_failure s env_path e). Qed.

(** X3. [is_current_env] raises exactly when resolving the interpreter's
    path, or after it the given path, raises an exception that is neither
    an [OSError] nor a [RuntimeError]; it is that exception. *)
Theorem is_current_env_raises (s : S) (env_path : string) (e : exn) :
  is_current_env s env_path = Raise e <->
  OSError_or_RuntimeError (exn_cls e) = false /\
  (resolve s (Path.of_str (sys_executable s)) = Raise e
   \/ exists exe,
       resolve s (Path.of_str (sys_executable s)) = Ret exe /\
       resolve s (Path.of_str env_path) = Raise e).
Proof.
  unfold is_current_env, try_except, bind.
  destruct (resolve s (Path.of_str (sys_executable s))) as [exe | e1].
  - destruct (resolve s (Path.of_str env_path)) as [p | e2].
    + split; [discriminate |].
      intros [_ [Hx | (x & _ & Hx)]]; discriminate.
    + destruct (OSError_or_RuntimeError (exn_cls e2)) eqn:Hc.
      * split; [discriminate |].
        intros [Hn [Hx | (x & _ & Hx)]]; [discriminate |].
        inversion Hx; subst. rewrite Hc in Hn. discriminate.
      * split.
        -- intros Hx. inversion Hx; subst. split; [exact Hc |].
           right. exists exe. split; reflexivity.
        -- intros [_ [Hx | (x & _ & Hx)]]; [discriminate |].
           inversion Hx; subst. reflexivity.
  - destruct (OSError_or_RuntimeError (exn_cls e1)) eqn:Hc.
    + split; [discriminate |].
      intros [Hn [Hx | (x & Hx & _)]]; [| discriminate].
      inversion Hx; subst. rewrite Hc in Hn. discriminate.
    + split.
      * intros Hx. inversion Hx; subst. split; [exact Hc |]. left. reflexivity.
      * intros [_ [Hx | (x & Hx & _)]]; [| discriminate].
        inversion Hx; subst. reflexivity.
Qed.

(** X4. [delete_environment] raises exactly when [is_current_env] does on
    the environment's path, with that exception and with the machine left
    as it was: what the two removal calls raise comes back as a failure
    message instead. *)
Theorem delete_environment_raises (s s' : S) (env : Environment) (e : exn) :
  delete_environment s env = (Raise e, s') <->
  is_current_env s (path env) = Raise e /\ s' = s.
Proof.
  unfold delete_environment, blocking_delete_conda, blocking_delete.
  destruct (is_current_env s (path env)) as [[|] | e0].
  - split; [discriminate | intros [Hx _]; discriminate].
  - split; [| intros [Hx _]; discriminate].
    destruct (String.eqb (env_type env) "Conda").
    + destruct (String.eqb (lower (name env)) "base"); [discriminate |].
      destruct (conda_env_remove s (path env)) as [[u | x] t]; discriminate.
    + destruct (rmtree s (path env)) as [[u | x] t]; discriminate.
  - split.
    + intros Hx. inversion Hx; subst. split; reflexivity.
    + intros [Hx ->]. inversion Hx; subst. reflexivity.
Qed.

(** X5. Success is reported only for a removal that ran: if
    [delete_environment] answers true, the path is not the running
    environment and the call that fits the type returned without an
    exception, [conda env remove] for a Conda environment not named
    [base], [rmtree] for any other type; the machine is the one that call
    left. *)
Theorem delete_environment_success (s s' : S) (env : Environment) (message : string) :
  delete_environment s env = (Ret (true, message), s') ->
  is_current_env s (path env) = Ret false /\
  ((env_type env = "Conda" /\ lower (name env) <> "base" /\
    conda_env_remove s (path env) = (Ret tt, s') /\
    message = "Conda environment removed successfully.")
   \/ (env_type env <> "Conda" /\
       rmtree s (path env) = (Ret tt, s') /\
       message = "Environment removed successfully.")).
Proof.
  unfold delete_environment, blocking_delete_conda, blocking_delete.
  destruct (is_current_env s (path env)) as [[|] | e0]; try discriminate.
  intros Hd. split; [reflexivity |].
  destruct (String.eqb_spec (env_type env) "Conda") as [Ht | Ht].
  - destruct (String.eqb_spec (lower (name env)) "base") as [Hn | Hn];
      [discriminate |].
    destruct (conda_env_remove s (path env)) as [[[] | x] t]; inversion Hd; subst.
    left. repeat split; assumption.
  - destruct (rmtree s (path env)) as [[[] | x] t]; inversion Hd; subst.
    right. repeat split; assumption.
Qed.

(** X6. A failure answer is one of four: the in-use refusal, the base
    refusal for a Conda environment, or the exception of the removal call
    that fits the type, whose text ends the message.  The two refusals
    leave the machine as it was. *)
Theorem delete_environment_failure (s s' : S) (env : Environment) (message : string) :
  delete_environment s env = (Ret (false, message), s') ->
  (is_current_env s (path env) = Ret true /\ s' = s /\
   message = "Cannot delete the environment currently in use.")
  \/ (is_current_env s (path env) = Ret false /\ env_type env = "Conda" /\
      lower (name env) = "base" /\ s' = s /\
      message = "Cannot delete the Conda base environment.")
  \/ (exists exc,
        is_current_env s (path env) = Ret false /\ env_type env = "Conda" /\
        conda_env_remove s (path env) = (Raise exc, s') /\
        message = ("Error deleting Conda environment: " ++ exn_str exc)%string)
  \/ (exists exc,
        is_current_env s (path env) = Ret false /\ env_type env <> "Conda" /\
        rmtree s (path env) = (Raise exc, s') /\
        message = ("Error deleting environment: " ++ exn_str exc)%string).
Proof.
  unfold delete_environment, blocking_delete_conda, blocking_delete.
  destruct (is_current_env s (path env)) as [[|] | e0]; try discriminate.
  - intros Hd. inversion Hd; subst. left. repeat split.
  - intros Hd. right.
    destruct (String.eqb_spec (env_type env) "Conda") as [Ht | Ht].
    + destruct (String.eqb_spec (lower (name env)) "base") as [Hn | Hn].
      * inversion Hd; subst. left. repeat split; assumption.
      * right. left.
        destruct (conda_env_remove s (path env)) as [[[] | x] t];
          inversion Hd; subst.
        exists x. repeat split; assumption.
    + right. right.
      destruct (rmtree s (path env)) as [[[] | x] t]; inversion Hd; subst.
      exists x. repeat split; assumption.
Qed.

End Guard.

Lemma delete_environment_protects_ancestor_witness :
  let env := mkEnvironment "project" "venv" "/tmp/project" in
  Path.below (Path.parts (Path.of_str (path env)))
             (Path.parts (Path.of_str (sys_executable Samples.project))) = true /\
  is_current_env Samples.project (path env) = Ret true /\
  delete_environment Samples.project env =
    (Ret (false, "Cannot delete the environment currently in use."),
     Samples.project).
Proof.
  intros env. split; [reflexivity |].
  apply (delete_environment_protects_ancestor Samples.project env
           (Path.of_str "/tmp/project/.venv/bin/python")
           (Path.of_str "/tmp/project"));
    reflexivity.
Defined.

Lemma is_current_env_contains_witness :
  let denied := mkExn OSError "Permission denied" in
  OSError_or_RuntimeError (exn_cls denied) = true /\
  resolve denied (Path.of_str (sys_executable denied)) = Raise denied /\
  is_current_env denied "/home/u/.virtualenvs/app" = Ret false.
Proof.
  intros denied. split; [reflexivity |]. split; [reflexivity |].
  apply (is_current_env_contains denied "/home/u/.virtualenvs/app" denied);
    [reflexivity | left; reflexivity].
Defined.

(** A path with a NUL byte: [resolve] raises a [ValueError], which is not
    caught, neither by [is_current_env] nor by [delete_environment]. *)
Example is_current_env_value_error :
  let nul := mkExn ValueError "embedded null byte" in
  is_current_env nul "/home/u/x" = Raise nul /\
  delete_environment nul (mkEnvironment "x" "venv" "/home/u/x") = (Raise nul, nul).
Proof. split; reflexivity. Qed.

Lemma delete_environment_success_witness :
  let env := mkEnvironment "myenv" "venv" "/home/u/.virtualenvs/myenv" in
  let s' := Machine.prune
              (Machine.log Samples.system_python "rmtree /home/u/.virtualenvs/myenv")
              ["home"; "u"; ".virtualenvs"; "myenv"] in
  delete_environment Samples.system_python env =
    (Ret (true, "Environment removed successfully."), s') /\
  is_current_env Samples.system_python (path env) = Ret false /\
  rmtree Samples.system_python (path env) = (Ret tt, s') /\
  is_dir s' (Path.of_str (path env)) = Ret false.
Proof.
  intros env s'.
  assert (Hd : delete_environment Samples.system_python env =
               (Ret (true, "Environment removed successfully."), s'))
    by reflexivity.
  destruct (delete_environment_success Samples.system_python s' env _ Hd)
    as [Hc [(Ht & _) | (_ & Hr & _)]]; [discriminate Ht |].
  split; [exact Hd |]. split; [exact Hc |]. split; [exact Hr | reflexivity].
Defined.

Lemma delete_environment_failure_witness :
  let env := mkEnvironment "gone" "venv" "/home/u/.virtualenvs/gone" in
  let s' := Machine.log Samples.system_python "rmtree /home/u/.virtualenvs/gone" in
  delete_environment Samples.system_python env =
    (Ret (false, "Error deleting environment: No such file or directory"), s') /\
  rmtree Samples.system_python (path env) = (Raise Machine.no_such, s').
Proof.
  intros env s'.
  assert (Hd : delete_environment Samples.system_python env =
               (Ret (false, "Error deleting environment: No such file or directory"), s'))
    by reflexivity.
  split; [exact Hd |].
  destruct (delete_environment_failure Samples.system_python s' env _ Hd)
    as [(Hc & _) | [(_ & Ht & _) | [(exc & _ & Ht & _) | (exc & _ & _ & Hr & _)]]];
    try discriminate.
  reflexivity.
Defined.

(* ------------------------------------------------------------------ *)
(** ** The scanners, directory by directory *)
(* ------------------------------------------------------------------ *)

Section FirstRaise.

Context {S : Type} `{Host S}.
Variable s : S.
Variable alone : Path.t -> outcome (list Environment) * list string.
Hypothesis alone_raises :
  forall base e, fst (alone base) = Raise e <-> is_dir s base = Raise e.

(** A chain over base directories raises at the first base whose
    [is_dir] raises. *)
Lemma chain_first_raise (bases : list Path.t) (e : exn) :
  fst (chain (map alone bases)) = Raise e <->
  exists pre base post,
    bases = pre ++ base :: post /\
    bases_examined s pre /\
    is_dir s base = Raise e.
Proof.
  induction bases as [| b rest IH]; simpl.
  - split; [discriminate |].
    intros (pre & base & post & E & _). destruct pre; discriminate.
  - destruct (alone b) as [[envs | e0] out] eqn:Ha; simpl.
    + assert (Hb : exists answer, is_dir s b = Ret answer).
      { destruct (is_dir s b) as [answer | e1] eqn:Hd; [eexists; reflexivity |].
        apply alone_raises in Hd. rewrite Ha in Hd. discriminate. }
      split.
      * intros Hr.
        destruct (fst (chain (map alone rest))) as [envs' | e1]; [discriminate |].
        inversion Hr; subst e1.
        destruct (proj1 IH eq_refl) as (pre & base & post & -> & Hpre & Hd).
        exists (b :: pre), base, post. split; [reflexivity |].
        split; [| exact Hd].
        intros x [<- | Hx]; [exact Hb | apply Hpre, Hx].
      * intros (pre & base & post & E & Hpre & Hd).
        destruct pre as [| b' pre]; simpl in E; inversion E; subst.
        -- destruct Hb as [answer Hb]. rewrite Hb in Hd. discriminate.
        -- assert (Hc : fst (chain (map alone (pre ++ base :: post))) = Raise e).
           { apply IH. exists pre, base, post. split; [reflexivity |].
             split; [| exact Hd]. intros x Hx. apply Hpre. right. exact Hx. }
           rewrite Hc. reflexivity.
    + assert (Hd0 : is_dir s b = Raise e0)
        by (apply alone_raises; rewrite Ha; reflexivity).
      split.
      * intros Hr. inversion Hr; subst e0. exists [], b, rest.
        split; [reflexivity |]. split; [intros x [] | exact Hd0].
      * intros (pre & base & post & E & Hpre & Hd).
        destruct pre as [| b' pre]; simpl in E; inversion E; subst.
        -- rewrite Hd0 in Hd. inversion Hd; subst. reflexivity.
        -- destruct (Hpre b' (or_introl eq_refl)) as [answer Hb].
           rewrite Hb in Hd0. discriminate.
Qed.

End FirstRaise.

Section Bases.

Context {S : Type} `{Host S}.

(** A base directory on its own raises when its [is_dir] does, and only
    then: what goes wrong in listing it or below it is caught. *)
Lemma venv_base_alone_raises (s : S) (base : Path.t) (e : exn) :
  fst (venv_base_alone s base) = Raise e <-> is_dir s base = Raise e.
Proof.
  unfold venv_base_alone, scan_venv_base.
  destruct (is_dir s base) as [[|] | e0].
  - destruct (iterdir s base) as [entries | e1];
      [destruct (scan_venv_entries s base entries []) as [found [e2 |]] |];
      simpl; split; discriminate.
  - simpl. split; discriminate.
  - simpl. split; intros Hx; inversion Hx; reflexivity.
Qed.

Lemma conda_base_alone_raises (s : S) (base : Path.t) (e : exn) :
  fst (conda_base_alone s base) = Raise e <-> is_dir s base = Raise e.
Proof.
  unfold conda_base_alone, conda_manual_base.
  destruct (is_dir s base) as [[|] | e0].
  - destruct (iterdir s base) as [entries | e1];
      [destruct (conda_manual_entries s base entries []) as [found [e2 |]] |];
      simpl; split; discriminate.
  - simpl. split; discriminate.
  - simpl. split; intros Hx; inversion Hx; reflexivity.
Qed.

Lemma scan_venv_dirs_first_raise (s : S) (e : exn) :
  fst (scan_venv_dirs s) = Raise e <->
  path_home s = Raise e
  \/ exists home pre base post,
       path_home s = Ret home /\
       venv_bases home = pre ++ base :: post /\
       bases_examined s pre /\
       is_dir s base = Raise e.
Proof.
  rewrite scan_venv_dirs_flat. destruct (path_home s) as [home | e0].
  - rewrite (chain_first_raise s (venv_base_alone s) (venv_base_alone_raises s)).
    split.
    + intros (pre & base & post & E & Hpre & Hd). right.
      exists home, pre, base, post. repeat split; assumption.
    + intros [Hx | (h & pre & base & post & Hh & E & Hpre & Hd)]; [discriminate |].
      inversion Hh; subst h. exists pre, base, post. repeat split; assumption.
  - simpl. split.
    + intros Hx. inversion Hx; subst. left. reflexivity.
    + intros [Hx | (h & pre & base & post & Hh & _)]; [| discriminate].
      inversion Hx; subst. reflexivity.
Qed.

Lemma conda_manual_scan_first_raise (s : S) (e : exn) :
  fst (conda_manual_scan s) = Raise e <->
  path_home s = Raise e
  \/ exists home pre base post,
       path_home s = Ret home /\
       known_dirs home = pre ++ base :: post /\
       bases_examined s pre /\
       is_dir s base = Raise e.
Proof.
  rewrite conda_manual_scan_flat. destruct (path_home s) as [home | e0].
  - cbn [fst].
    rewrite (chain_first_raise s (conda_base_alone s) (conda_base_alone_raises s)).
    split.
    + intros (pre & base & post & E & Hpre & Hd). right.
      exists home, pre, base, post. repeat split; assumption.
    + intros [Hx | (h & pre & base & post & Hh & E & Hpre & Hd)]; [discriminate |].
      inversion Hh; subst h. exists pre, base, post. repeat split; assumption.
  - simpl. split.
    + intros Hx. inversion Hx; subst. left. reflexivity.
    + intros [Hx | (h & pre & base & post & Hh & _)]; [| discriminate].
      inversion Hx; subst. reflexivity.
Qed.

(** X7. [scan_venv_dirs] is the chain of its three base directories,
    each scanned on its own: records and printed lines one after the
    other, up to the first base whose [is_dir] raises.  What goes wrong in
    listing a base or below it takes nothing from the others; what
    [is_dir] raises on a base (line 249, outside the [try]) ends the scan,
    the records made so far are lost.  The scanner raises in that case and
    when [Path.home()] raises, and in no other. *)
Theorem scan_venv_dirs_per_base (s : S) :
  scan_venv_dirs s =
    match path_home s with
    | Ret home => chain (map (venv_base_alone s) (venv_bases home))
    | Raise e => (Raise e, [])
    end
  /\ forall e,
       fst (scan_venv_dirs s) = Raise e <->
       path_home s = Raise e
       \/ exists home pre base post,
            path_home s = Ret home /\
            venv_bases home = pre ++ base :: post /\
            bases_examined s pre /\
            is_dir s base = Raise e.
Proof.
  split; [exact (scan_venv_dirs_flat s) | exact (scan_venv_dirs_first_raise s)].
Qed.

(** X8. The same for the branch of [scan_conda_envs] taken when no
    [conda] is found: after its opening line, the chain of the three
    installation directories, each scanned on its own, up to the first
    whose [is_dir] raises (line 287, outside the [try]).  It raises in
    that case and when [Path.home()] raises, and in no other. *)
Theorem conda_manual_scan_per_base (s : S) :
  conda_manual_scan s =
    match path_home s with
    | Ret home =>
        (fst (chain (map (conda_base_alone s) (known_dirs home))),
         "Conda CLI not found; performing manual scan."
         :: snd (chain (map (conda_base_alone s) (known_dirs home))))
    | Raise e => (Raise e, ["Conda CLI not found; performing manual scan."])
    end
  /\ forall e,
       fst (conda_manual_scan s) = Raise e <->
       path_home s = Raise e
       \/ exists home pre base post,
            path_home s = Ret home /\
            known_dirs home = pre ++ base :: post /\
            bases_examined s pre /\
            is_dir s base = Raise e.
Proof.
  split; [exact (conda_manual_scan_flat s) | exact (conda_manual_scan_first_raise s)].
Qed.

(** X9. [scan_conda_envs] raises exactly when no [conda] is found and
    either [Path.home()] raises or, the earlier ones examined, [is_dir]
    raises on one of the three installation directories; with a [conda]
    on the search path it returns whatever that command does. *)
Theorem scan_conda_envs_raises (s : S) (e : exn) :
  fst (scan_conda_envs s) = Raise e <->
  which s "conda" = None /\
  (path_home s = Raise e
   \/ exists home pre base post,
        path_home s = Ret home /\
        known_dirs home = pre ++ base :: post /\
        bases_examined s pre /\
        is_dir s base = Raise e).
Proof.
  unfold scan_conda_envs. destruct (which s "conda") as [conda_path |].
  - destruct (conda_cli_scan s conda_path) as [envs out]. simpl.
    split; [discriminate | intros [Hx _]; discriminate].
  - rewrite conda_manual_scan_first_raise. split.
    + intros Hx. split; [reflexivity | exact Hx].
    + intros [_ Hx]. exact Hx.
Qed.

(** X10. [scan_current_dir_venv] has no [try]: it raises exactly when
    [Path.cwd()] raises, when [is_dir] raises on [.venv], when [.venv] is
    a directory and [exists] raises on its [pyvenv.cfg], or when both
    tests of line 304 pass and resolving [.venv] raises. *)
Theorem scan_current_dir_venv_raises (s : S) (e : exn) :
  fst (scan_current_dir_venv s) = Raise e <->
  path_cwd s = Raise e
  \/ exists cwd,
      path_cwd s = Ret cwd /\
      (is_dir s (cwd / ".venv")%path = Raise e
       \/ (is_dir s (cwd / ".venv")%path = Ret true /\
           path_exists s (cwd / ".venv" / "pyvenv.cfg")%path = Raise e)
       \/ (is_dir s (cwd / ".venv")%path = Ret true /\
           path_exists s (cwd / ".venv" / "pyvenv.cfg")%path = Ret true /\
           resolve s (cwd / ".venv")%path = Raise e)).
Proof.
  unfold scan_current_dir_venv. cbn [fst]. unfold bind, and_then, bind.
  destruct (path_cwd s) as [cwd | e0].
  2:{ split; [intros Hx; left; congruence |].
      intros [Hx | (c & Hc & _)]; congruence. }
  destruct (is_dir s (cwd / ".venv")%path) as [[|] | e1] eqn:Hd.
  - destruct (path_exists s (cwd / ".venv" / "pyvenv.cfg")%path)
      as [[|] | e2] eqn:Hm.
    + destruct (resolve s (cwd / ".venv")%path) as [r | e3] eqn:Hr.
      * split; [discriminate |].
        intros [Hx | (c & Hc & [Hx | [[Ha Hx] | (Ha & Hb & Hx)]])]; congruence.
      * split.
        -- intros Hx. right. exists cwd. split; [reflexivity |].
           right. right. repeat split; congruence.
        -- intros [Hx | (c & Hc & [Hx | [[Ha Hx] | (Ha & Hb & Hx)]])]; congruence.
    + split; [discriminate |].
      intros [Hx | (c & Hc & [Hx | [[Ha Hx] | (Ha & Hb & Hx)]])]; congruence.
    + split.
      * intros Hx. right. exists cwd. split; [reflexivity |].
        right. left. split; congruence.
      * intros [Hx | (c & Hc & [Hx | [[Ha Hx] | (Ha & Hb & Hx)]])]; congruence.
  - split; [discriminate |].
    intros [Hx | (c & Hc & [Hx | [[Ha Hx] | (Ha & Hb & Hx)]])]; congruence.
  - split.
    + intros Hx. right. exists cwd. split; [reflexivity |]. left. congruence.
    + intros [Hx | (c & Hc & [Hx | [[Ha Hx] | (Ha & Hb & Hx)]])]; congruence.
Qed.

(** X11. When none of the three base directories is a directory,
    [scan_venv_dirs] returns the empty list and prints nothing: an
    environment that lies elsewhere, directly in the home directory for
    one, is not reported. *)
Theorem scan_venv_dirs_no_base (s : S) (home : Path.t) :
  path_home s = Ret home ->
  (forall base, In base (venv_bases home) -> is_dir s base = Ret false) ->
  scan_venv_dirs s = (Ret [], []).
Proof.
  intros Hh Hnone. rewrite scan_venv_dirs_flat, Hh.
  assert (Ha : forall base, In base (venv_bases home) ->
                            venv_base_alone s base = (Ret [], [])).
  { intros base Hin. unfold venv_base_alone, scan_venv_base.
    rewrite (Hnone base Hin). reflexivity. }
  unfold venv_bases in *. simpl.
  rewrite !Ha by (simpl; auto). reflexivity.
Qed.

End Bases.

Lemma scan_venv_dirs_no_base_witness :
  path_home Fixtures.venv_in_home = Ret (Path.of_str "/tmp/t0") /\
  is_dir Fixtures.venv_in_home (Path.of_str "/tmp/t0/venv_test") = Ret true /\
  path_exists Fixtures.venv_in_home (Path.of_str "/tmp/t0/venv_test/pyvenv.cfg")
    = Ret true /\
  scan_venv_dirs Fixtures.venv_in_home = (Ret [], []).
Proof.
  assert (Hh : path_home Fixtures.venv_in_home = Ret (Path.of_str "/tmp/t0"))
    by reflexivity.
  split; [exact Hh |]. split; [reflexivity |]. split; [reflexivity |].
  apply (scan_venv_dirs_no_base Fixtures.venv_in_home _ Hh).
  intros base [<- | [<- | [<- | []]]]; reflexivity.
Defined.

(** The scan of [~/.virtualenvs] is lost when [~/.cache] cannot be
    searched, and the directory scan for Conda raises likewise. *)
Example scan_venv_dirs_raises_locked :
  fst (scan_venv_dirs Cases.locked_cache) = Raise Locked.denied /\
  exists found,
    found <> [] /\
    fst (venv_base_alone Cases.locked_cache (Path.of_str "/home/u/.virtualenvs"))
      = Ret found.
Proof.
  split; [reflexivity |]. eexists. split; [| reflexivity]. discriminate.
Qed.

(* ------------------------------------------------------------------ *)
(** ** What the scanners report *)
(* ------------------------------------------------------------------ *)

Section Reports.

Context {S : Type} `{Host S}.

Lemma scan_venv_dirs_records (s : S) (home : Path.t) :
  path_home s = Ret home ->
  Forall (venv_record s home) (succeeded (fst (scan_venv_dirs s))).
Proof.
  intros Hh. eapply Forall_impl; [| apply (scan_venv_dirs_made s home Hh)].
  intros env (base & entries & Hb & Hd & Hl & child & r & Hin & Hdc & Hm & Hr & ->).
  exists base, entries, child, r. repeat split; assumption.
Qed.

(** X12. Nothing is reported by [scan_venv_dirs] without its marker:
    every record comes from an entry listed in one of the three base
    directories that is a directory and has [pyvenv.cfg] in it; its name
    is the name of that entry, its path the resolved entry, and its type
    is read off the base directory. *)
Theorem scan_venv_dirs_sound (s : S) (home : Path.t) :
  path_home s = Ret home ->
  Forall (venv_record s home) (succeeded (fst (scan_venv_dirs s))).
Proof. exact (scan_venv_dirs_records s home). Qed.

Lemma conda_manual_records (s : S) (home : Path.t) :
  which s "conda" = None ->
  path_home s = Ret home ->
  Forall (conda_dir_record s home) (succeeded (fst (scan_conda_envs s))).
Proof.
  intros Hw Hh. unfold scan_conda_envs. rewrite Hw.
  eapply Forall_impl; [| apply (conda_manual_scan_made s home Hh)].
  intros env (base & entries & Hb & Hd & Hl & child & r & Hin & Hdc & Hm & Hr & ->).
  exists base, entries, child, r. repeat split; assumption.
Qed.

(** X13. The same for the directory scan for Conda: with no [conda] on
    the search path, every record of [scan_conda_envs] comes from an
    entry listed in one of the three installation directories that is a
    directory and has a [conda-meta] directory or a [bin/python] in it;
    it is named after that entry, typed ["Conda"], at the resolved entry. *)
Theorem scan_conda_envs_manual_sound (s : S) (home : Path.t) :
  which s "conda" = None ->
  path_home s = Ret home ->
  Forall (conda_dir_record s home) (succeeded (fst (scan_conda_envs s))).
Proof. exact (conda_manual_records s home). Qed.

Lemma conda_cli_entries_typed (items : list json) :
  forall envs,
    Forall (fun env => env_type env = "Conda"
                       /\ name env = Path.name (Path.of_str (path env))) envs ->
    Forall (fun env => env_type env = "Conda"
                       /\ name env = Path.name (Path.of_str (path env)))
           (fst (conda_cli_entries items envs)).
Proof.
  induction items as [| item rest IH]; intros envs Henvs; simpl; [exact Henvs |].
  destruct item; try exact Henvs.
  apply IH, Forall_app. split; [exact Henvs |].
  repeat constructor.
Qed.

Lemma conda_cli_scan_typed (s : S) (conda_path : string) :
  which s "conda" = Some conda_path ->
  exists envs out,
    scan_conda_envs s = (Ret envs, out) /\
    length out <= 1 /\
    Forall (fun env => env_type env = "Conda"
                       /\ name env = Path.name (Path.of_str (path env))) envs.
Proof.
  intros Hw. unfold scan_conda_envs, conda_cli_scan. rewrite Hw.
  destruct (data <- conda_env_list s conda_path;; v <- get_envs data;; iterate v)
    as [items | exc].
  - pose proof (conda_cli_entries_typed items [] (Forall_nil _)) as Ht.
    destruct (conda_cli_entries items []) as [envs [exc |]];
      exists envs; eexists; (split; [reflexivity |]); split; simpl; auto.
  - exists []. eexists. split; [reflexivity |]. split; simpl; auto.
Qed.

(** X14. With a [conda] on the search path [scan_conda_envs] never
    raises and never looks further: it returns a list, prints at most one
    line, and every record is typed ["Conda"], named by the last component
    of its path. *)
Theorem scan_conda_envs_cli_contained (s : S) (conda_path : string) :
  which s "conda" = Some conda_path ->
  exists envs out,
    scan_conda_envs s = (Ret envs, out) /\
    length out <= 1 /\
    Forall (fun env => env_type env = "Conda"
                       /\ name env = Path.name (Path.of_str (path env))) envs.
Proof. exact (conda_cli_scan_typed s conda_path). Qed.

Lemma dict_get_missing (members : list (string * json)) (key : string)
      (default : json) :
  ~ In key (map fst members) -> dict_get members key default = default.
Proof.
  induction members as [| [k v] members IH]; simpl; intros Hk; [reflexivity |].
  destruct (String.eqb_spec k key) as [-> | _].
  - exfalso. apply Hk. left. reflexivity.
  - apply IH. intros Hin. apply Hk. right. exact Hin.
Qed.

(** X15. A listing without the key ["envs"] is an empty listing: the
    scanner returns the empty list and prints nothing. *)
Theorem scan_conda_envs_no_envs_key (s : S) (conda_path : string)
        (members : list (string * json)) :
  which s "conda" = Some conda_path ->
  conda_env_list s conda_path = Ret (JObj members) ->
  ~ In "envs" (map fst members) ->
  scan_conda_envs s = (Ret [], []).
Proof.
  intros Hw Hl Hk. unfold scan_conda_envs, conda_cli_scan. rewrite Hw, Hl. simpl.
  rewrite (dict_get_missing _ _ _ Hk). reflexivity.
Qed.

(** X16. An element of the list that is no string ends the listing
    there: the paths before it are recorded, those after it are not, and
    one line is printed for the [TypeError]. *)
Theorem scan_conda_envs_bad_element (s : S) (conda_path : string) (data : json)
        (paths : list string) (bad : json) (rest : list json) :
  which s "conda" = Some conda_path ->
  conda_env_list s conda_path = Ret data ->
  get_envs data = Ret (JArr (map JStr paths ++ bad :: rest)) ->
  (forall p, bad <> JStr p) ->
  exists exc,
    exn_cls exc = TypeError /\
    scan_conda_envs s =
      (Ret (map (fun p => mkEnvironment (Path.name (Path.of_str p)) "Conda" p) paths),
       [("Error scanning Conda via CLI: " ++ exn_str exc)%string]).
Proof.
  intros Hw Hl Hg Hbad.
  exists (mkExn TypeError "expected str, bytes or os.PathLike object").
  split; [reflexivity |].
  unfold scan_conda_envs, conda_cli_scan. rewrite Hw, Hl. simpl. rewrite Hg. simpl.
  assert (Hloop : forall envs,
             conda_cli_entries (map JStr paths ++ bad :: rest) envs =
               (envs ++ map (fun p => mkEnvironment (Path.name (Path.of_str p)) "Conda" p) paths,
                Some (mkExn TypeError "expected str, bytes or os.PathLike object"))).
  { clear Hg. induction paths as [| p paths IH]; intros envs; simpl.
    - rewrite app_nil_r. destruct bad; try reflexivity.
      exfalso. exact (Hbad _ eq_refl).
    - rewrite IH, <- app_assoc. reflexivity. }
  rewrite Hloop. reflexivity.
Qed.

Ltac tag := simpl; repeat ((left; reflexivity) || right).

(** X17. Every environment [scan_all_environments] returns carries one
    of the five type tags. *)
Theorem scan_all_environments_known_types (s : S) :
  Forall (fun env => known_type (env_type env))
         (succeeded (fst (scan_all_environments s))).
Proof.
  rewrite scan_all_environments_eq. cbn [fst succeeded].
  apply Forall_app; split; [| apply Forall_app; split].
  - destruct (path_home s) as [home | e] eqn:Hh.
    + eapply Forall_impl; [| apply (scan_venv_dirs_records s home Hh)].
      intros env (base & entries & child & r & _ & _ & _ & _ & _ & _ & _ & ->).
      unfold known_type, etype_of. simpl.
      destruct (contains "pypoetry" (Path.str base)); [tag |].
      destruct (contains "local" (Path.str base)); tag.
    + rewrite scan_venv_dirs_flat, Hh. constructor.
  - destruct (which s "conda") as [conda_path |] eqn:Hw.
    + destruct (conda_cli_scan_typed s conda_path Hw)
        as (envs & out & -> & _ & Ht).
      eapply Forall_impl; [| exact Ht].
      intros env [-> _]. unfold known_type. tag.
    + destruct (path_home s) as [home | e] eqn:Hh.
      * eapply Forall_impl; [| apply (conda_manual_records s home Hw Hh)].
        intros env (base & entries & child & r & _ & _ & _ & _ & _ & _ & _ & ->).
        unfold known_type. tag.
      * unfold scan_conda_envs. rewrite Hw, conda_manual_scan_flat, Hh.
        constructor.
  - unfold scan_current_dir_venv. cbn [fst]. unfold bind, and_then, bind.
    destruct (path_cwd s) as [cwd | e]; [| constructor].
    destruct (is_dir s (cwd / ".venv")%path) as [[|] | e]; try constructor.
    destruct (path_exists s (cwd / ".venv" / "pyvenv.cfg")%path) as [[|] | e];
      try constructor.
    destruct (resolve s (cwd / ".venv")%path); [| constructor].
    constructor; [| constructor]. unfold known_type. tag.
Qed.

End Reports.

Lemma scan_venv_dirs_sound_witness :
  let home := Path.of_str "/home/u" in
  path_home Samples.system_python = Ret home /\
  venv_record Samples.system_python home
    (mkEnvironment "myenv" "venv" "/home/u/.virtualenvs/myenv").
Proof.
  intros home.
  assert (Hh : path_home Samples.system_python = Ret home) by reflexivity.
  split; [exact Hh |].
  pose proof (scan_venv_dirs_sound Samples.system_python home Hh) as Hs.
  rewrite Forall_forall in Hs. apply Hs. vm_compute. right. left. reflexivity.
Defined.

Lemma scan_conda_envs_manual_sound_witness :
  let home := Path.of_str "/home/u" in
  which Samples.no_conda "conda" = None /\
  path_home Samples.no_conda = Ret home /\
  conda_dir_record Samples.no_conda home
    (mkEnvironment "foo" "Conda" "/home/u/miniconda3/envs/foo").
Proof.
  intros home.
  assert (Hw : which Samples.no_conda "conda" = None) by reflexivity.
  assert (Hh : path_home Samples.no_conda = Ret home) by reflexivity.
  split; [exact Hw |]. split; [exact Hh |].
  pose proof (scan_conda_envs_manual_sound Samples.no_conda home Hw Hh) as Hs.
  rewrite Forall_forall in Hs. apply Hs. vm_compute. left. reflexivity.
Defined.

Lemma scan_conda_envs_cli_contained_witness :
  which Samples.broken_conda "conda" = Some "/usr/bin/conda" /\
  exists envs out, scan_conda_envs Samples.broken_conda = (Ret envs, out).
Proof.
  assert (Hw : which Samples.broken_conda "conda" = Some "/usr/bin/conda")
    by reflexivity.
  split; [exact Hw |].
  destruct (scan_conda_envs_cli_contained Samples.broken_conda _ Hw)
    as (envs & out & Hs & _).
  exists envs, out. exact Hs.
Defined.

Lemma scan_conda_envs_no_envs_key_witness :
  let s := Samples.miniconda (Some (Ret (JObj [("root_prefix", JStr "/opt/conda")]))) in
  which s "conda" = Some "/usr/bin/conda" /\
  scan_conda_envs s = (Ret [], []).
Proof.
  intros s. split; [reflexivity |].
  apply (scan_conda_envs_no_envs_key s "/usr/bin/conda"
           [("root_prefix", JStr "/opt/conda")]);
    [reflexivity | reflexivity |].
  simpl. intros [E | []]. discriminate.
Defined.

Lemma scan_conda_envs_bad_element_witness :
  let data := JObj [("envs", JArr [JStr "/opt/conda"; JNull; JStr "/opt/conda/envs/a"])] in
  let s := Samples.miniconda (Some (Ret data)) in
  which s "conda" = Some "/usr/bin/conda" /\
  exists line,
    scan_conda_envs s = (Ret [mkEnvironment "conda" "Conda" "/opt/conda"], [line]).
Proof.
  intros data s. split; [reflexivity |].
  destruct (scan_conda_envs_bad_element s "/usr/bin/conda" data
              ["/opt/conda"] JNull [JStr "/opt/conda/envs/a"])
    as (exc & _ & Hs); try reflexivity; [discriminate |].
  eexists. exact Hs.
Defined.

(* ------------------------------------------------------------------ *)
(** ** The type tag and the home directory *)
(* ------------------------------------------------------------------ *)

Lemma substring_append (pat y : string) :
  substring 0 (String.length pat) (pat ++ y) = pat.
Proof.
  induction pat as [| c pat IH]; simpl; [destruct y; reflexivity |].
  rewrite IH. reflexivity.
Qed.

Lemma substring_skip (x pat y : string) :
  substring (String.length x) (String.length pat) (x ++ pat ++ y) = pat.
Proof.
  induction x as [| c x IH]; simpl; [apply substring_append | exact IH].
Qed.

(** A text that has [pat] in it somewhere contains it. *)
Lemma contains_middle (x pat y : string) :
  pat <> "" -> contains pat (x ++ pat ++ y) = true.
Proof.
  intros Hne. unfold contains.
  destruct (String.index 0 pat (x ++ pat ++ y)) eqn:Hi; [reflexivity |].
  exfalso.
  apply (index_correct3 0 (String.length x) pat (x ++ pat ++ y) Hi Hne).
  - apply Nat.le_0_l.
  - apply substring_skip.
Qed.

Lemma str_app_assoc (a b c : string) :
  ((a ++ b) ++ c = a ++ b ++ c)%string.
Proof.
  induction a as [| ch a IH]; simpl; [reflexivity | rewrite IH; reflexivity].
Qed.

Lemma concat_snoc (sep : string) (l : list string) (a : string) :
  l <> [] ->
  String.concat sep (l ++ [a]) = (String.concat sep l ++ sep ++ a)%string.
Proof.
  induction l as [| x l IH]; intros Hne; [contradiction |].
  destruct l as [| y l]; [reflexivity |].
  change (String.concat sep ((x :: y :: l) ++ [a]))
    with (x ++ sep ++ String.concat sep ((y :: l) ++ [a]))%string.
  rewrite IH by discriminate.
  change (String.concat sep (x :: y :: l))
    with (x ++ sep ++ String.concat sep (y :: l))%string.
  rewrite <- !str_app_assoc. reflexivity.
Qed.

(** Below a path that has components, a further one is added to the
    text after a slash. *)
Lemma str_joinpath_below (q : Path.t) (b : string) :
  Path.parts q <> [] ->
  Path.str (q / b)%path = (Path.str q ++ "/" ++ b)%string.
Proof.
  destruct q as [anch l]. cbn [Path.parts]. intros Hne.
  destruct l as [| y l]; [contradiction |].
  unfold Path.str, Path.joinpath. cbn [Path.anchored Path.parts].
  rewrite (concat_snoc "/" (y :: l) b) by discriminate.
  destruct anch; reflexivity.
Qed.

(** The text of [p / a / b] ends in [a/b], after a slash or at the
    start. *)
Lemma str_joinpath2 (p : Path.t) (a b : string) :
  exists x, Path.str (p / a / b)%path = (x ++ a ++ "/" ++ b)%string.
Proof.
  rewrite str_joinpath_below
    by (destruct p as [anch l]; simpl; intros E; apply app_eq_nil in E;
        destruct E; discriminate).
  destruct p as [anch [| y l]].
  - destruct anch; [exists "/" | exists ""]; reflexivity.
  - rewrite str_joinpath_below by discriminate.
    exists (Path.str (Path.mk anch (y :: l)) ++ "/")%string.
    rewrite !str_app_assoc. reflexivity.
Qed.

Lemma etype_of_poetry_cache (home : Path.t) :
  etype_of (home / ".cache" / "pypoetry" / "virtualenvs")%path = "Poetry".
Proof.
  unfold etype_of.
  destruct (str_joinpath2 (home / ".cache")%path "pypoetry" "virtualenvs")
    as [x ->].
  rewrite contains_middle by discriminate. reflexivity.
Qed.

Lemma etype_of_local_share (home : Path.t) :
  etype_of (home / ".local" / "share" / "virtualenvs")%path = "Poetry"
  \/ etype_of (home / ".local" / "share" / "virtualenvs")%path = "Pipenv".
Proof.
  unfold etype_of.
  destruct (contains "pypoetry" _); [left; reflexivity | right].
  rewrite str_joinpath_below
    by (destruct home as [anch l]; simpl; intros E; apply app_eq_nil in E;
        destruct E; discriminate).
  destruct (str_joinpath2 home ".local" "share") as [x ->].
  change (x ++ ".local" ++ "/" ++ "share")%string
    with (x ++ "." ++ "local" ++ "/share")%string.
  rewrite <- (str_app_assoc x "."), !str_app_assoc.
  rewrite <- (str_app_assoc x "."), contains_middle by discriminate.
  reflexivity.
Qed.

Section Tags.

Context {S : Type} `{Host S}.

Lemma venv_base_alone_tagged (s : S) (base : Path.t) :
  Forall (fun env => env_type env = etype_of base)
         (succeeded (fst (venv_base_alone s base))).
Proof.
  eapply Forall_impl; [| apply venv_base_alone_made].
  intros env (_ & entries & _ & child & r & _ & _ & _ & _ & ->). reflexivity.
Qed.

(** X18. Whatever the home directory is called, what [scan_venv_dirs]
    finds in [~/.cache/pypoetry/virtualenvs] is typed ["Poetry"], and
    what it finds in [~/.local/share/virtualenvs] is typed ["Pipenv"] or,
    when the home directory has [pypoetry] in its path, ["Poetry"]; the
    type ["venv"] is given in [~/.virtualenvs] only. *)
Theorem venv_types_by_base (s : S) (home : Path.t) :
  Forall (fun env => env_type env = "Poetry")
         (succeeded
            (fst (venv_base_alone s (home / ".cache" / "pypoetry" / "virtualenvs")%path)))
  /\ Forall (fun env => env_type env = "Poetry" \/ env_type env = "Pipenv")
            (succeeded
               (fst (venv_base_alone s (home / ".local" / "share" / "virtualenvs")%path))).
Proof.
  split.
  - eapply Forall_impl; [| apply venv_base_alone_tagged].
    intros env ->. apply etype_of_poetry_cache.
  - eapply Forall_impl; [| apply venv_base_alone_tagged].
    intros env ->. apply etype_of_local_share.
Qed.

End Tags.

(* ------------------------------------------------------------------ *)
(** ** Nothing marked is missed *)
(* ------------------------------------------------------------------ *)

Section Complete.

Context {S : Type} `{HostLaws S}.

(** X19. On a host where a directory resolves, and when the tests of
    lines 249 and 252 return for the three base directories and for the
    entries of the one at hand, [scan_venv_dirs] returns and misses
    nothing that is marked there: if the base directory is a directory
    and can be listed, every entry of it that is a directory and holds
    [pyvenv.cfg] is reported, under its own name, with the type of the
    base directory, at its resolved path. *)
Theorem scan_venv_dirs_complete (s : S) (home base : Path.t) (child : string)
        (entries : list string) :
  path_home s = Ret home ->
  bases_examined s (venv_bases home) ->
  In base (venv_bases home) ->
  is_dir s base = Ret true ->
  iterdir s base = Ret entries ->
  venv_entries_examined s base entries ->
  In child entries ->
  is_dir s (base / child)%path = Ret true ->
  path_exists s (base / child / "pyvenv.cfg")%path = Ret true ->
  exists r envs,
    resolve s (base / child)%path = Ret r /\
    fst (scan_venv_dirs s) = Ret envs /\
    In (mkEnvironment child (etype_of base) (Path.str r)) envs.
Proof. exact (scan_venv_dirs_contains s home base child entries). Qed.

(** X20. The same for the directory scan for Conda, taken when no
    [conda] is on the search path, and when the tests of lines 287 and
    290-291 return for the three installation directories and for the
    entries of the one at hand: every entry of a listable installation
    directory that is a directory and has a [conda-meta] directory or a
    [bin/python] in it is reported, under its own name, typed ["Conda"],
    at its resolved path. *)
Theorem scan_conda_envs_manual_complete (s : S) (home base : Path.t)
        (child : string) (entries : list string) :
  which s "conda" = None ->
  path_home s = Ret home ->
  bases_examined s (known_dirs home) ->
  In base (known_dirs home) ->
  is_dir s base = Ret true ->
  iterdir s base = Ret entries ->
  conda_entries_examined s base entries ->
  In child entries ->
  is_dir s (base / child)%path = Ret true ->
  or_else (is_dir s (base / child / "conda-meta")%path)
          (path_exists s (base / child / "bin" / "python")%path) = Ret true ->
  exists r envs,
    resolve s (base / child)%path = Ret r /\
    fst (scan_conda_envs s) = Ret envs /\
    In (mkEnvironment child "Conda" (Path.str r)) envs.
Proof.
  intros Hw. unfold scan_conda_envs. rewrite Hw.
  exact (conda_manual_scan_contains s home base child entries).
Qed.

End Complete.

Lemma scan_venv_dirs_complete_witness :
  let home := Path.of_str "/home/u" in
  let base := (home / ".virtualenvs")%path in
  path_home Samples.system_python = Ret home /\
  is_dir Samples.system_python (base / "app2")%path = Ret true /\
  path_exists Samples.system_python (base / "app2" / "pyvenv.cfg")%path = Ret true /\
  In (mkEnvironment "app2" "venv" "/home/u/.virtualenvs/app2")
     (succeeded (fst (scan_venv_dirs Samples.system_python))).
Proof.
  intros home base.
  split; [reflexivity |]. split; [reflexivity |]. split; [reflexivity |].
  destruct (scan_venv_dirs_complete Samples.system_python home base "app2"
              [".venv"; "myenv"; "Base"; "app"; "app2"])
    as (r & envs & Hr & Hs & Hin); try reflexivity.
  - apply Machine_bases_examined.
  - left. reflexivity.
  - apply Machine_venv_entries_examined.
  - do 4 right. left. reflexivity.
  - vm_compute in Hr. inversion Hr; subst r. rewrite Hs. exact Hin.
Defined.

Lemma scan_conda_envs_manual_complete_witness :
  let home := Path.of_str "/tmp/t0" in
  let base := (home / "miniconda3" / "envs")%path in
  which Fixtures.conda_in_home "conda" = None /\
  is_dir Fixtures.conda_in_home (base / "fake_conda_env" / "conda-meta")%path
    = Ret true /\
  In (mkEnvironment "fake_conda_env" "Conda" "/tmp/t0/miniconda3/envs/fake_conda_env")
     (succeeded (fst (scan_conda_envs Fixtures.conda_in_home))).
Proof.
  intros home base. split; [reflexivity |]. split; [reflexivity |].
  destruct (scan_conda_envs_manual_complete Fixtures.conda_in_home home base
              "fake_conda_env" ["fake_conda_env"])
    as (r & envs & Hr & Hs & Hin); try reflexivity.
  - apply Machine_bases_examined.
  - left. reflexivity.
  - apply Machine_conda_entries_examined.
  - left. reflexivity.
  - vm_compute in Hr. inversion Hr; subst r. rewrite Hs. exact Hin.
Defined.

(* ------------------------------------------------------------------ *)
(** ** More on the dictionary of the caller *)
(* ------------------------------------------------------------------ *)

Lemma existsb_eqb_In (x : string) (seen : list string) :
  existsb (String.eqb x) seen = true <-> In x seen.
Proof.
  rewrite existsb_exists. split.
  - intros (y & Hin & Heq). apply String.eqb_eq in Heq. subst y. exact Hin.
  - intros Hin. exists x. split; [exact Hin | apply String.eqb_refl].
Qed.

Lemma dict_set_new_entry (d : list (string * Environment)) k v :
  ~ In k (keys d) -> dict_set d k v = d ++ [(k, v)].
Proof.
  induction d as [| [k' v'] d IH]; simpl; intros Hn; [reflexivity |].
  destruct (String.eqb_spec k' k) as [-> | _].
  - exfalso. apply Hn. left. reflexivity.
  - rewrite IH; [reflexivity |]. intros Hin. apply Hn. right. exact Hin.
Qed.

Lemma fold_dict_set_keys (envs : list Environment) :
  forall d,
    keys (fold_left (fun d env => dict_set d (path env) env) envs d) =
      keys d ++ fresh (keys d) (map path envs).
Proof.
  induction envs as [| x envs IH]; intros d; simpl.
  - rewrite app_nil_r. reflexivity.
  - rewrite IH. destruct (existsb (String.eqb (path x)) (keys d)) eqn:Hs.
    + apply existsb_eqb_In in Hs. rewrite (dict_set_keys_old _ _ _ Hs).
      reflexivity.
    + assert (Hn : ~ In (path x) (keys d)).
      { intros Hin. apply existsb_eqb_In in Hin. rewrite Hin in Hs. discriminate. }
      rewrite (dict_set_keys_new _ _ _ Hn), <- app_assoc. reflexivity.
Qed.

Lemma unique_by_path_keys (envs : list Environment) :
  map path (unique_by_path envs) = keys (by_path envs).
Proof.
  unfold unique_by_path, keys. rewrite map_map. apply map_ext_in.
  intros [k v] Hin. apply (proj2 (by_path_spec envs)) in Hin. exact (proj1 Hin).
Qed.

Lemma by_path_distinct (envs : list Environment) :
  NoDup (map path envs) -> by_path envs = map (fun e => (path e, e)) envs.
Proof.
  unfold by_path. induction envs as [| x l IH] using rev_ind; intros Hn;
    [reflexivity |].
  rewrite map_app in Hn. apply NoDup_remove in Hn. rewrite app_nil_r in Hn.
  destruct Hn as [Hl Hx].
  rewrite fold_left_app, map_app. simpl. rewrite (IH Hl).
  apply dict_set_new_entry. unfold keys. rewrite map_map. exact Hx.
Qed.

(** X21. The list the window keeps is in the order in which the paths
    first occur in the scan: its paths are the paths of the scan, each
    kept where it first appears (while the record kept for a path is the
    last one with it). *)
Theorem unique_by_path_order (envs : list Environment) :
  map path (unique_by_path envs) = fresh [] (map path envs).
Proof.
  rewrite unique_by_path_keys. unfold by_path.
  rewrite fold_dict_set_keys. reflexivity.
Qed.

(** X22. A scan in which no path occurs twice is kept as it is, order
    included. *)
Theorem unique_by_path_distinct (envs : list Environment) :
  NoDup (map path envs) -> unique_by_path envs = envs.
Proof.
  intros Hn. unfold unique_by_path. rewrite (by_path_distinct _ Hn), map_map.
  simpl. apply map_id.
Qed.

(** X23. Removing the duplicates twice is removing them once. *)
Theorem unique_by_path_idempotent (envs : list Environment) :
  unique_by_path (unique_by_path envs) = unique_by_path envs.
Proof.
  unfold unique_by_path at 1.
  rewrite (by_path_distinct _ (unique_by_path_NoDup envs)), map_map.
  simpl. apply map_id.
Qed.

Lemma unique_by_path_distinct_witness :
  let envs := [ mkEnvironment "a" "venv" "/home/u/.virtualenvs/a";
                mkEnvironment "a" "Conda" "/home/u/miniconda3/envs/a" ] in
  NoDup (map path envs) /\ unique_by_path envs = envs.
Proof.
  intros envs.
  assert (Hn : NoDup (map path envs)).
  { simpl. constructor; [intros [E | []]; discriminate |].
    constructor; [intros [] | constructor]. }
  split; [exact Hn | apply (unique_by_path_distinct envs Hn)].
Defined.

(* ------------------------------------------------------------------ *)
(** ** The table and the two coroutines of the window *)
(* ------------------------------------------------------------------ *)


Section Window.

Context {S : Type} `{Host S}.

Lemma refresh_environments_window (w : MainWindow.t) (s : S) :
  exists envs,
    refresh_environments s = Some envs /\
    fst (MainWindow.refresh_environments w s) =
      MainWindow.mk
        (EnvTableModel.update_data (MainWindow.env_table_model w) envs) envs
        ("Found " ++ str_of_nat (length envs) ++ " environments.")%string.
Proof.
  unfold MainWindow.refresh_environments, refresh_environments.
  rewrite scan_all_environments_eq. cbn [fst]. eexists. split; reflexivity.
Qed.

(** X25. After [MainWindow.refresh_environments] the table and the
    window's list are the same list, the one with one record for each
    path of the scan; the status bar counts its rows; and no two rows
    of the table show the same path in the third column. *)
Theorem refresh_environments_table (w : MainWindow.t) (s : S) :
  let w' := fst (MainWindow.refresh_environments w s) in
  let table := MainWindow.env_table_model w' in
  refresh_environments s = Some (MainWindow.all_envs w') /\
  EnvTableModel.environments table = MainWindow.all_envs w' /\
  MainWindow.status_bar w' =
    ("Found " ++ str_of_nat (EnvTableModel.rowCount table) ++ " environments.")%string /\
  forall i j shown,
    EnvTableModel.data table (mkIndex true i 2) DisplayRole = Some (Some shown) ->
    EnvTableModel.data table (mkIndex true j 2) DisplayRole = Some (Some shown) ->
    i = j.
Proof.
  intros w' table. subst table w'.
  destruct (refresh_environments_window w s) as (envs & Hr & ->).
  cbn [MainWindow.all_envs MainWindow.env_table_model MainWindow.status_bar
       EnvTableModel.update_data EnvTableModel.environments].
  split; [exact Hr |]. split; [reflexivity |]. split; [reflexivity |].
  assert (Hn : NoDup (map path envs)).
  { unfold refresh_environments in Hr.
    destruct (fst (scan_all_environments s)) as [scanned | e]; [| discriminate].
    inversion Hr; subst envs. apply unique_by_path_NoDup. }
  intros i j shown Hi Hj.
  unfold EnvTableModel.data in Hi, Hj. simpl in Hi, Hj.
  destruct (nth_error envs i) as [ei |] eqn:Ei; [| discriminate].
  destruct (nth_error envs j) as [ej |] eqn:Ej; [| discriminate].
  inversion Hi; inversion Hj; subst shown.
  apply (proj1 (NoDup_nth_error (map path envs)) Hn).
  - rewrite length_map. apply nth_error_Some. rewrite Ei. discriminate.
  - rewrite !nth_error_map, Ei, Ej. simpl. congruence.
Qed.


(** X27. When [is_current_env] answers [True] for the path of the
    selected environment, confirming its deletion changes nothing on the
    machine: the failure box with the in-use message is shown.  The
    protection reaches as far as the test of line 315 and no further: an
    environment whose interpreter resolves to a path outside of it is not
    recognised by that test. *)
Theorem delete_selected_in_use (w : MainWindow.t) (s : S) (source_row : nat)
        (env : Environment) :
  nth_error (EnvTableModel.environments (MainWindow.env_table_model w)) source_row
    = Some env ->
  is_current_env s (path env) = Ret true ->
  exists w' ask out,
    MainWindow.delete_selected w s (Some source_row) true =
      Some (w', s,
            [ask; critical "Deletion Failed"
                           "Cannot delete the environment currently in use."],
            out).
Proof.
  intros Hrow Hc. unfold MainWindow.delete_selected. rewrite Hrow. cbn [negb].
  unfold delete_environment. rewrite Hc.
  destruct (MainWindow.refresh_environments _ s) as [w' out].
  do 3 eexists. reflexivity.
Qed.

End Window.


Lemma delete_selected_in_use_witness :
  let s := Samples.project in
  let w := fst (MainWindow.refresh_environments MainWindow.init s) in
  let env := mkEnvironment "project" "venv (local)" "/tmp/project/.venv" in
  nth_error (EnvTableModel.environments (MainWindow.env_table_model w)) 0
    = Some env /\
  is_current_env s (path env) = Ret true /\
  exists w' ask out,
    MainWindow.delete_selected w s (Some 0) true =
      Some (w', s,
            [ask; critical "Deletion Failed"
                           "Cannot delete the environment currently in use."],
            out).
Proof.
  intros s w env.
  assert (Hrow : nth_error (EnvTableModel.environments (MainWindow.env_table_model w)) 0
                 = Some env) by reflexivity.
  assert (Hc : is_current_env s (path env) = Ret true) by reflexivity.
  split; [exact Hrow |]. split; [exact Hc |].
  exact (delete_selected_in_use w s 0 env Hrow Hc).
Defined.

(** The window after its first refresh on a machine with five
    environments, and what its table answers. *)
Example refresh_environments_first :
  let w := fst (MainWindow.refresh_environments MainWindow.init Samples.system_python) in
  MainWindow.status_bar w = "Found 5 environments." /\
  EnvTableModel.rowCount (MainWindow.env_table_model w) = 5 /\
  EnvTableModel.columnCount (MainWindow.env_table_model w) = 3 /\
  EnvTableModel.data (MainWindow.env_table_model w) (mkIndex true 1 0) DisplayRole
    = Some (Some "myenv") /\
  EnvTableModel.data (MainWindow.env_table_model w) (mkIndex true 1 3) DisplayRole
    = Some None /\
  EnvTableModel.data (MainWindow.env_table_model w) (mkIndex true 5 0) DisplayRole
    = None.
Proof. repeat split; reflexivity. Qed.

(* ------------------------------------------------------------------ *)
(** ** From the listing of Conda to its removal *)
(* ------------------------------------------------------------------ *)

Section ListedThenDeleted.

Context {S : Type} `{Host S}.

(** X28. The base guard looks at the name, and the name of a listed
    Conda environment is the last component of its path: a record of the
    Conda listing that is not the running environment is handed to
    [conda env remove] unless its directory is called [base], in any
    casing; the name Conda itself gives the environment plays no part. *)
Theorem delete_listed_conda_env (s : S) (conda_path : string) (env : Environment) :
  which s "conda" = Some conda_path ->
  In env (succeeded (fst (scan_conda_envs s))) ->
  is_current_env s (path env) = Ret false ->
  delete_environment s env =
    if String.eqb (lower (Path.name (Path.of_str (path env)))) "base"
    then (Ret (false, "Cannot delete the Conda base environment."), s)
    else blocking_delete_conda s env.
Proof.
  intros Hw Hin Hc.
  destruct (conda_cli_scan_typed s conda_path Hw) as (envs & out & Hs & _ & Ht).
  rewrite Hs in Hin. cbn [fst succeeded] in Hin.
  rewrite Forall_forall in Ht. destruct (Ht env Hin) as [Htype Hname].
  rewrite (delete_environment_not_current s env Hc), Htype, <- Hname.
  reflexivity.
Qed.

End ListedThenDeleted.

Lemma delete_listed_conda_env_witness :
  let s := Samples.miniconda
             (Some (Ret (JObj [("envs", JArr [JStr "/home/u/miniconda3"])]))) in
  let root := mkEnvironment "miniconda3" "Conda" "/home/u/miniconda3" in
  fst (scan_conda_envs s) = Ret [root] /\
  is_current_env s (path root) = Ret false /\
  exists s',
    delete_environment s root =
      (Ret (true, "Conda environment removed successfully."), s') /\
    Machine.journal s' = ["conda env remove --prefix /home/u/miniconda3"] /\
    is_dir s' (Path.of_str "/home/u/miniconda3") = Ret false.
Proof.
  intros s root.
  assert (Hc : is_current_env s (path root) = Ret false) by reflexivity.
  split; [reflexivity |]. split; [exact Hc |].
  pose proof (delete_listed_conda_env s "/usr/bin/conda" root eq_refl
                (or_introl eq_refl) Hc) as Hd.
  eexists. split; [rewrite Hd; reflexivity |]. split; reflexivity.
Defined.
